(** * Orthanc utilities: the annotated-instance walk and the batch split

    A shallow embedding of two pieces of the repository:

    - [extract_annotated_studies] of [orthanc_instance_uids.py], the walk
      studies -> series -> instances that collects the SOPInstanceUID of every
      annotated instance together with the patient ID and name of its study;
    - [split_intervals] of [orthanc_lists_to_annotate.py] and the split of the
      result table at those intervals done in its [main].

    Modelling decisions.

    - A Python [str] is a Rocq [string], one [ascii] per character;
      [str.lower] acts on the letters A-Z.
    - A decoded JSON document is a value of [json].  Arrays hold strings (the
      server's arrays are lists of identifiers and of attachment names),
      numbers are integers, objects are association lists in document order
      (a decoded object has pairwise distinct keys; a lookup reads the first
      field with the key).
    - [requests.get(url, auth=credentials).json()] is a function from the URL
      and the credentials to a [result]: the decoded document, or the
      exception the call raised.  The server is only read.
    - A Python exception is a value of [exn]; a computation that may raise
      returns a [result].  The three lists the walk appends to are threaded
      through the loops as an explicit state.
    - A table (a pandas DataFrame) is the list of its rows.  The quotient
      [shape[0] / chunk_size] is taken exactly: row counts are far below the
      range in which a double stops representing the integers. *)

From Stdlib Require Import String Ascii List ZArith Lia Bool Arith.
From Stdlib Require DecimalString DecimalNat.
From Stdlib Require Import Permutation.
Import ListNotations.
Local Open Scope string_scope.

(** ** Exceptions and results *)

Inductive exn : Type :=
| KeyError (key : string)
| TypeError
| AttributeError
| ZeroDivisionError
| ValueError
| RequestException (msg : string).

Inductive result (A : Type) : Type :=
| Ok (a : A)
| Raise (e : exn).

Arguments Ok {A} a.
Arguments Raise {A} e.

Definition bind {A B : Type} (r : result A) (k : A -> result B) : result B :=
  match r with
  | Ok a => k a
  | Raise e => Raise e
  end.

Declare Scope result_scope.
Delimit Scope result_scope with result.
Notation "x <- e ;; k" := (bind e (fun x => k))
  (at level 61, e at next level, right associativity) : result_scope.
Local Open Scope result_scope.

(** What an exception carries (the [args] of the Python exception). *)
Definition exn_args (e : exn) : list string :=
  match e with
  | KeyError key => [key]
  | RequestException msg => [msg]
  | TypeError | AttributeError | ZeroDivisionError | ValueError => []
  end.

(** [for x in xs: st = body st x], stopping at the first exception. *)
Fixpoint for_each {X S : Type} (body : S -> X -> result S) (xs : list X) (st : S)
  : result S :=
  match xs with
  | [] => Ok st
  | x :: xs' => st' <- body st x ;; for_each body xs' st'
  end.

(** ** Python strings *)

Definition lower_ascii (c : ascii) : ascii :=
  let n := nat_of_ascii c in
  if (65 <=? n)%nat && (n <=? 90)%nat then ascii_of_nat (n + 32) else c.

(** [s.lower()] *)
Fixpoint py_lower (s : string) : string :=
  match s with
  | EmptyString => EmptyString
  | String c s' => String (lower_ascii c) (py_lower s')
  end.

(** [s.replace(old, new)] for one-character [old] and [new]. *)
Fixpoint py_replace (old new : ascii) (s : string) : string :=
  match s with
  | EmptyString => EmptyString
  | String c s' =>
      String (if Ascii.eqb c old then new else c) (py_replace old new s')
  end.

(** [sub in s] on strings. *)
Fixpoint py_str_in (sub s : string) : bool :=
  String.prefix sub s ||
  match s with
  | EmptyString => false
  | String _ s' => py_str_in sub s'
  end.

(** Python turns a slice bound into a position of a sequence of length
    [len]: a negative bound counts from the end, and the result is clamped
    to [0, len]. *)
Definition slice_bound (len : nat) (i : Z) : nat :=
  let j := if (i <? 0)%Z then (i + Z.of_nat len)%Z else i in
  Nat.min (Z.to_nat j) len.

(** [s[:stop]] *)
Definition py_str_slice_to (s : string) (stop : Z) : string :=
  String.substring 0 (slice_bound (String.length s) stop) s.

(** [x in l] for a string [x] and a list of strings [l]. *)
Definition py_list_in (x : string) (l : list string) : bool :=
  existsb (String.eqb x) l.

(** [list(s)]: the characters of [s] as one-character strings. *)
Fixpoint py_chars (s : string) : list string :=
  match s with
  | EmptyString => []
  | String c s' => String c EmptyString :: py_chars s'
  end.

(** ** Decoded JSON *)

#[warnings="-register-all"]
Inductive json : Type :=
| JNull
| JBool (b : bool)
| JNum (n : Z)
| JStr (s : string)
| JArr (items : list string)
| JObj (fields : list (string * json)).

(** [d.get(key)] on the fields of an object: [None] is Python's [None]. *)
Fixpoint dict_get (fields : list (string * json)) (key : string) : option json :=
  match fields with
  | [] => None
  | (k, v) :: rest => if String.eqb k key then Some v else dict_get rest key
  end.

(** [bool(v)] *)
Definition py_truthy (v : json) : bool :=
  match v with
  | JNull => false
  | JBool b => b
  | JNum n => negb (n =? 0)%Z
  | JStr s => negb (String.eqb s "")
  | JArr items => match items with [] => false | _ => true end
  | JObj fields => match fields with [] => false | _ => true end
  end.

(** [bool(d.get(key))] *)
Definition py_truthy_opt (o : option json) : bool :=
  match o with
  | Some v => py_truthy v
  | None => false
  end.

(** [v[key]] for a string [key]. *)
Definition py_getitem (v : json) (key : string) : result json :=
  match v with
  | JObj fields =>
      match dict_get fields key with
      | Some x => Ok x
      | None => Raise (KeyError key)
      end
  | _ => Raise TypeError
  end.

(** [x in v] for a string [x]. *)
Definition py_in (x : string) (v : json) : result bool :=
  match v with
  | JArr items => Ok (py_list_in x items)
  | JObj fields => Ok (py_list_in x (map fst fields))
  | JStr s => Ok (py_str_in x s)
  | JNull | JBool _ | JNum _ => Raise TypeError
  end.

(** The items [for x in v] runs through. *)
Definition py_iter (v : json) : result (list string) :=
  match v with
  | JArr items => Ok items
  | JObj fields => Ok (map fst fields)
  | JStr s => Ok (py_chars s)
  | JNull | JBool _ | JNum _ => Raise TypeError
  end.

(** [v.keys()], together with the fields [v.get] reads. *)
Definition py_fields (v : json) : result (list (string * json)) :=
  match v with
  | JObj fields => Ok fields
  | _ => Raise AttributeError
  end.

(** [v.replace(old, new)] *)
Definition py_replace_method (v : json) (old new : ascii) : result string :=
  match v with
  | JStr s => Ok (py_replace old new s)
  | _ => Raise AttributeError
  end.

(** ** The server *)

(** [requests.get(url, auth=credentials).json()] *)
Definition Server : Type := string -> string * string -> result json.

(** ** [extract_annotated_studies] *)

(** The lists [annotated_instances], [patient_ids], [patient_names]. *)
Definition Lists : Type := list json * list string * list string.

Section Walk.

Variable server : Server.
Variable orthanc_credentials : string * string.
Variables studies_url series_url instances_url : string.
Variable ignore_str : option string.

(** Lines 71-74: the keys with a truthy value, each cut by two characters. *)
Definition instance_uuids_of (annotation_data : list (string * json)) : list string :=
  let instance_uuids :=
    filter (fun key => py_truthy_opt (dict_get annotation_data key))
           (map fst annotation_data) in
  map (fun uuid => py_str_slice_to uuid (-2)) instance_uuids.

(** Line 83: [ignore_str and ignore_str.lower() in patient_id.lower()] *)
Definition ignored (patient_id : string) : bool :=
  match ignore_str with
  | None => false
  | Some s =>
      negb (String.eqb s "") && py_str_in (py_lower s) (py_lower patient_id)
  end.

(** Lines 93-100: the body of the loop over the instances of a series. *)
Definition instance_body (instance_uuids : list string)
    (patient_id patient_name : string) (st : Lists) (instance : string)
  : result Lists :=
  if negb (py_list_in instance instance_uuids) then Ok st
  else
    instance_info <- server (instances_url ++ instance) orthanc_credentials ;;
    main_tags <- py_getitem instance_info "MainDicomTags" ;;
    instance_uid <- py_getitem main_tags "SOPInstanceUID" ;;
    match st with
    | (annotated_instances, patient_ids, patient_names) =>
        Ok ((annotated_instances ++ [instance_uid])%list,
            (patient_ids ++ [patient_id])%list,
            (patient_names ++ [patient_name])%list)
    end.

(** Lines 88-100: the body of the loop over the series of a study. *)
Definition series_body (instance_uuids : list string)
    (patient_id patient_name : string) (st : Lists) (series : string)
  : result Lists :=
  series_info <- server (series_url ++ series) orthanc_credentials ;;
  all_instances <- py_getitem series_info "Instances" ;;
  instances <- py_iter all_instances ;;
  for_each (instance_body instance_uuids patient_id patient_name) instances st.

(** Lines 64-100: the body of the loop over the studies. *)
Definition study_body (st : Lists) (study : string) : result Lists :=
  attachments <- server (studies_url ++ study ++ "/attachments/")
                        orthanc_credentials ;;
  annotated <- py_in "9999" attachments ;;
  if negb annotated then Ok st
  else
    annotation_data <- server (studies_url ++ study ++ "/attachments/9999/data")
                              orthanc_credentials ;;
    annotation_fields <- py_fields annotation_data ;;
    let instance_uuids := instance_uuids_of annotation_fields in
    study_info <- server (studies_url ++ study) orthanc_credentials ;;
    patient_tags <- py_getitem study_info "PatientMainDicomTags" ;;
    raw_id <- py_getitem patient_tags "PatientID" ;;
    patient_id <- py_replace_method raw_id " " "_" ;;
    patient_tags' <- py_getitem study_info "PatientMainDicomTags" ;;
    raw_name <- py_getitem patient_tags' "PatientName" ;;
    patient_name <- py_replace_method raw_name " " "_" ;;
    all_series <- py_getitem study_info "Series" ;;
    if ignored patient_id then Ok st
    else
      series_list <- py_iter all_series ;;
      for_each (series_body instance_uuids patient_id patient_name)
               series_list st.

Definition extract_annotated_studies : result Lists :=
  all_studies <- server studies_url orthanc_credentials ;;
  studies <- py_iter all_studies ;;
  for_each study_body studies ([], [], []).

End Walk.

(** ** What [main] writes: one row per position of the three lists *)

(** A MatchResult: (SOPInstanceUID, patient ID, patient name). *)
Definition MatchResult : Type := json * string * string.

(** [zip(annotated_instances, patient_ids, patient_names)] (line 124). *)
Fixpoint py_zip3 (us : list json) (ps ns : list string) : list MatchResult :=
  match us, ps, ns with
  | u :: us', p :: ps', n :: ns' => (u, p, n) :: py_zip3 us' ps' ns'
  | _, _, _ => []
  end.

Definition rows_of (st : Lists) : list MatchResult :=
  match st with
  | (annotated_instances, patient_ids, patient_names) =>
      py_zip3 annotated_instances patient_ids patient_names
  end.


(** ** The visits of the walk

    A visit is one execution of lines 96-100: the walk is at [instance] of
    [series] of [study], has read its SOPInstanceUID, and appends one element
    to each list.  [walk_visits] lists the visits in the order in which they
    happen; it follows the same requests in the same order as the loops, and
    emits a record where the loops append. *)

Record Visit : Type := {
  v_study : string;
  v_series : string;
  v_instance : string;
  v_uid : json;
  v_patient_id : string;
  v_patient_name : string
}.

Definition result_of (v : Visit) : MatchResult :=
  (v_uid v, v_patient_id v, v_patient_name v).

(** Run [f] on every element, in order, and chain what it emits. *)
Fixpoint collect {X R : Type} (f : X -> result (list R)) (xs : list X)
  : result (list R) :=
  match xs with
  | [] => Ok []
  | x :: xs' => r <- f x ;; rs <- collect f xs' ;; Ok (r ++ rs)%list
  end.

Section Visits.

Variable server : Server.
Variable orthanc_credentials : string * string.
Variables studies_url series_url instances_url : string.
Variable ignore_str : option string.

(** Lines 96-97: the SOPInstanceUID the server gives for an instance. *)
Definition fetched_uid (instance : string) : result json :=
  instance_info <- server (instances_url ++ instance) orthanc_credentials ;;
  main_tags <- py_getitem instance_info "MainDicomTags" ;;
  py_getitem main_tags "SOPInstanceUID".

(** Lines 89-91: the instances the server lists for a series. *)
Definition fetched_instances (series : string) : result (list string) :=
  series_info <- server (series_url ++ series) orthanc_credentials ;;
  all_instances <- py_getitem series_info "Instances" ;;
  py_iter all_instances.

Definition instance_visits (instance_uuids : list string)
    (patient_id patient_name study series instance : string)
  : result (list Visit) :=
  if negb (py_list_in instance instance_uuids) then Ok []
  else
    instance_uid <- fetched_uid instance ;;
    Ok [ {| v_study := study; v_series := series; v_instance := instance;
            v_uid := instance_uid; v_patient_id := patient_id;
            v_patient_name := patient_name |} ].

Definition series_visits (instance_uuids : list string)
    (patient_id patient_name study series : string) : result (list Visit) :=
  instances <- fetched_instances series ;;
  collect (instance_visits instance_uuids patient_id patient_name study series)
          instances.

Definition study_visits (study : string) : result (list Visit) :=
  attachments <- server (studies_url ++ study ++ "/attachments/")
                        orthanc_credentials ;;
  annotated <- py_in "9999" attachments ;;
  if negb annotated then Ok []
  else
    annotation_data <- server (studies_url ++ study ++ "/attachments/9999/data")
                              orthanc_credentials ;;
    annotation_fields <- py_fields annotation_data ;;
    study_info <- server (studies_url ++ study) orthanc_credentials ;;
    patient_tags <- py_getitem study_info "PatientMainDicomTags" ;;
    raw_id <- py_getitem patient_tags "PatientID" ;;
    patient_id <- py_replace_method raw_id " " "_" ;;
    raw_name <- py_getitem patient_tags "PatientName" ;;
    patient_name <- py_replace_method raw_name " " "_" ;;
    all_series <- py_getitem study_info "Series" ;;
    if ignored ignore_str patient_id then Ok []
    else
      series_list <- py_iter all_series ;;
      collect (series_visits (instance_uuids_of annotation_fields)
                             patient_id patient_name study)
              series_list.

Definition walk_visits : result (list Visit) :=
  all_studies <- server studies_url orthanc_credentials ;;
  studies <- py_iter all_studies ;;
  collect study_visits studies.

End Visits.

(** Appending one element per visit to each of the three lists. *)
Definition push (st : Lists) (vs : list Visit) : Lists :=
  match st with
  | (annotated_instances, patient_ids, patient_names) =>
      ((annotated_instances ++ map v_uid vs)%list,
       (patient_ids ++ map v_patient_id vs)%list,
       (patient_names ++ map v_patient_name vs)%list)
  end.

(** Appending the rows [rs] to the three lists. *)
Definition append_rows (st : Lists) (rs : list MatchResult) : Lists :=
  match st with
  | (annotated_instances, patient_ids, patient_names) =>
      ((annotated_instances ++ map (fun r => fst (fst r)) rs)%list,
       (patient_ids ++ map (fun r => snd (fst r)) rs)%list,
       (patient_names ++ map (fun r => snd r) rs)%list)
  end.

(** ** [split_intervals] and the split of the table *)

Local Open Scope Z_scope.

(** [math.ceil(n / c)] for [c <> 0]. *)
Definition ceil_div (n c : Z) : Z := - ((- n) / c).

(** [list(range(start, stop, step))] *)
Definition py_range (start stop step : Z) : result (list Z) :=
  if step =? 0 then Raise ValueError
  else
    let len :=
      if 0 <? step
      then (if start <? stop then (stop - start - 1) / step + 1 else 0)
      else (if stop <? start then (start - stop - 1) / (- step) + 1 else 0) in
    Ok (map (fun k => start + Z.of_nat k * step) (seq 0 (Z.to_nat len))).

Section Split.

Variable Row : Type.

(** [range(chunk_size, math.ceil(full_df.shape[0] / chunk_size) * chunk_size,
    chunk_size)] *)
Definition split_intervals (full_df : list Row) (chunk_size : Z)
  : result (list Z) :=
  if chunk_size =? 0 then Raise ZeroDivisionError
  else
    py_range chunk_size
             (ceil_div (Z.of_nat (length full_df)) chunk_size * chunk_size)
             chunk_size.

(** [df[start:stop]] *)
Definition py_slice (df : list Row) (start stop : Z) : list Row :=
  let a := slice_bound (length df) start in
  let b := slice_bound (length df) stop in
  firstn (b - a) (skipn a df).

(** The loop of numpy's [array_split]: one slice [sary[st:end]] for every two
    neighbours [st], [end] of [div_points]. *)
Fixpoint sub_arys (sary : list Row) (div_points : list Z) : list (list Row) :=
  match div_points with
  | [] => []
  | st :: rest =>
      match rest with
      | [] => []
      | en :: _ => py_slice sary st en :: sub_arys sary rest
      end
  end.

(** [np.split(ary, indices)] for a sequence of indices: numpy documents that
    indices [i; j] give [ary[:i]], [ary[i:j]], [ary[j:]]; it computes them
    from [div_points = [0] + list(indices) + [Ntotal]]. *)
Definition np_split (ary : list Row) (indices : list Z) : list (list Row) :=
  let div_points := (0 :: indices ++ [Z.of_nat (length ary)])%list in
  sub_arys ary div_points.

(** Lines 128-131 of [main]: the batches written out, one file each. *)
Definition split_dfs (random_df : list Row) (chunk_size : Z)
  : result (list (list Row)) :=
  interval <- split_intervals random_df chunk_size ;;
  Ok (np_split random_df interval).

End Split.

Arguments split_intervals {Row} full_df chunk_size.
Arguments py_slice {Row} df start stop.
Arguments sub_arys {Row} sary div_points.
Arguments np_split {Row} ary indices.
Arguments split_dfs {Row} random_df chunk_size.

Local Close Scope Z_scope.

(** ** Cut points of a table, as natural numbers *)

(** [p <= p1 <= ... <= pk <= n] for the points [p :: pts]. *)
Fixpoint ascending (p : nat) (pts : list nat) (n : nat) : Prop :=
  match pts with
  | [] => p <= n
  | q :: rest => p <= q /\ ascending q rest n
  end.

(** The differences of neighbours of [p :: pts]. *)
Fixpoint gaps (p : nat) (pts : list nat) : list nat :=
  match pts with
  | [] => []
  | q :: rest => (q - p) :: gaps q rest
  end.

(** The multiples [(o+1) * C; ...; (o+j) * C] followed by [n]. *)
Definition cut_points (C o j n : nat) : list nat :=
  (map (fun k => C + k * C) (seq o j) ++ [n])%list.

(** ** Vocabulary of the statements *)


(** [key] is a key of the annotation attachment that line 71 keeps: its value
    is truthy. *)
Definition kept_key (annotation : list (string * json)) (key : string) : Prop :=
  In key (map fst annotation) /\
  py_truthy_opt (dict_get annotation key) = true.

Section Facts.

Variable server : Server.
Variable orthanc_credentials : string * string.
Variables studies_url series_url instances_url : string.
Variable ignore_str : option string.

(** The attachments of [study] are listed and '9999' is among them. *)
Definition has_annotation (study : string) : Prop :=
  exists attachments,
    server (studies_url ++ study ++ "/attachments/") orthanc_credentials
      = Ok attachments /\
    py_in "9999" attachments = Ok true.

(** The attachments of [study] are listed and '9999' is not among them. *)
Definition no_annotation (study : string) : Prop :=
  exists attachments,
    server (studies_url ++ study ++ "/attachments/") orthanc_credentials
      = Ok attachments /\
    py_in "9999" attachments = Ok false.

(** The annotation attachment of [study] is the object with these fields. *)
Definition annotation_of (study : string) (fields : list (string * json)) : Prop :=
  server (studies_url ++ study ++ "/attachments/9999/data") orthanc_credentials
    = Ok (JObj fields).

(** The document of [study] has the object [tags] under
    'PatientMainDicomTags'. *)
Definition patient_tags_of (study : string) (study_info : json)
    (tags : list (string * json)) : Prop :=
  server (studies_url ++ study) orthanc_credentials = Ok study_info /\
  py_getitem study_info "PatientMainDicomTags" = Ok (JObj tags).

(** An annotated study whose document has string PatientID and PatientName
    tags and a value under 'Series'. *)
Definition annotated_study (study : string) (annotation : list (string * json))
    (raw_id raw_name : string) (all_series : json) : Prop :=
  has_annotation study /\
  annotation_of study annotation /\
  exists study_info tags,
    patient_tags_of study study_info tags /\
    dict_get tags "PatientID" = Some (JStr raw_id) /\
    dict_get tags "PatientName" = Some (JStr raw_name) /\
    py_getitem study_info "Series" = Ok all_series.

(** The walk, arrived at [study] with the lists [st], requests a resource on
    which a tag it reads is absent: the PatientID or the PatientName of the
    study, or the SOPInstanceUID of an instance it matched, everything the
    walk does in [study] before that having succeeded. *)
Inductive missing_field (st : Lists) (study : string)
  : string -> string -> Prop :=
| missing_patient_id : forall annotation study_info tags,
    has_annotation study ->
    annotation_of study annotation ->
    patient_tags_of study study_info tags ->
    dict_get tags "PatientID" = None ->
    missing_field st study study "PatientID"
| missing_patient_name : forall annotation study_info tags raw_id,
    has_annotation study ->
    annotation_of study annotation ->
    patient_tags_of study study_info tags ->
    dict_get tags "PatientID" = Some (JStr raw_id) ->
    dict_get tags "PatientName" = None ->
    missing_field st study study "PatientName"
| missing_sop_instance_uid :
    forall annotation raw_id raw_name all_series
           series_before series series_after st1
           instances_before instance instances_after st2
           instance_info main_tags,
    annotated_study study annotation raw_id raw_name all_series ->
    ignored ignore_str (py_replace " " "_" raw_id) = false ->
    py_iter all_series = Ok (series_before ++ series :: series_after)%list ->
    for_each (series_body server orthanc_credentials series_url instances_url
                (instance_uuids_of annotation)
                (py_replace " " "_" raw_id) (py_replace " " "_" raw_name))
             series_before st = Ok st1 ->
    fetched_instances server orthanc_credentials series_url series
      = Ok (instances_before ++ instance :: instances_after)%list ->
    for_each (instance_body server orthanc_credentials instances_url
                (instance_uuids_of annotation)
                (py_replace " " "_" raw_id) (py_replace " " "_" raw_name))
             instances_before st1 = Ok st2 ->
    py_list_in instance (instance_uuids_of annotation) = true ->
    server (instances_url ++ instance) orthanc_credentials = Ok instance_info ->
    py_getitem instance_info "MainDicomTags" = Ok (JObj main_tags) ->
    dict_get main_tags "SOPInstanceUID" = None ->
    missing_field st study instance "SOPInstanceUID".


End Facts.

(** A server given by a table from URLs to documents; any other request
    fails. *)
Definition table_server (table : list (string * json)) : Server :=
  fun url _ =>
    match dict_get table url with
    | Some document => Ok document
    | None => Raise (RequestException url)
    end.

(** ** Concrete servers

    The URLs are built as [main] builds them from the server URL. *)

Definition demo_credentials : string * string := ("user", "secret").
Definition demo_studies_url : string := "http://orthanc:8042/studies/".
Definition demo_series_url : string := "http://orthanc:8042/series/".
Definition demo_instances_url : string := "http://orthanc:8042/instances/".

Definition study_document (tags : list (string * json)) (series : list string)
  : json :=
  JObj [("PatientMainDicomTags", JObj tags); ("Series", JArr series)].

Definition series_document (instances : list string) : json :=
  JObj [("Instances", JArr instances)].

Definition instance_document (tags : list (string * json)) : json :=
  JObj [("MainDicomTags", JObj tags)].

(** A server with one study S1 that has one series R1: the attachments of
    S1, its annotation attachment, its patient tags, the instances of R1, and
    the tags of the instances that have a document. *)
Definition one_study_table (attachments : list string)
    (annotation tags : list (string * json)) (instances : list string)
    (instance_tags : list (string * list (string * json)))
  : list (string * json) :=
  List.app
    [ (demo_studies_url, JArr ["S1"]);
      (demo_studies_url ++ "S1/attachments/", JArr attachments);
      (demo_studies_url ++ "S1/attachments/9999/data", JObj annotation);
      (demo_studies_url ++ "S1", study_document tags ["R1"]);
      (demo_series_url ++ "R1", series_document instances) ]
    (map (fun it => (demo_instances_url ++ fst it, instance_document (snd it)))
         instance_tags).

Definition i1_i2_annotated : list (string * json) :=
  [("i1:0", JBool true); ("i2:0", JBool true)].

Definition patient_tags (patient_id patient_name : string)
  : list (string * json) :=
  [("PatientID", JStr patient_id); ("PatientName", JStr patient_name)].

(** The scenario: the instances i1, i2, i3 of R1, of which i1 and i2 are
    annotated.  The server has no document for i3. *)
Definition scenario_table (patient_id patient_name : string)
  : list (string * json) :=
  one_study_table ["9999"] i1_i2_annotated
    (patient_tags patient_id patient_name) ["i1"; "i2"; "i3"]
    [ ("i1", [("SOPInstanceUID", JStr "u1")]);
      ("i2", [("SOPInstanceUID", JStr "u2")]) ].

Definition scenario_server : Server :=
  table_server (scenario_table "patient 7" "DOE JOHN").


(** The scenario with no attachment on S1. *)
Definition unannotated_server : Server :=
  table_server
    (one_study_table ["dicom-as-json"] [] (patient_tags "patient 7" "DOE JOHN")
       ["i1"; "i2"; "i3"] []).

(** S1 is annotated, the annotation names an instance that R1 does not list,
    and the PatientName tag of S1 is absent. *)
Definition nameless_server : Server :=
  table_server
    (one_study_table ["9999"] [("zz:0", JBool true)]
       [("PatientID", JStr "patient 7")] ["i1"; "i2"; "i3"] []).

(** The same with both patient tags present. *)
Definition unmatched_server : Server :=
  table_server
    (one_study_table ["9999"] [("zz:0", JBool true)]
       (patient_tags "patient 7" "DOE JOHN") ["i1"; "i2"; "i3"] []).

(** The scenario with the PatientID tag of S1 absent. *)
Definition idless_server : Server :=
  table_server
    (one_study_table ["9999"] i1_i2_annotated
       [("PatientName", JStr "DOE JOHN")] ["i1"; "i2"; "i3"]
       [ ("i1", [("SOPInstanceUID", JStr "u1")]);
         ("i2", [("SOPInstanceUID", JStr "u2")]) ]).

(** The scenario with the SOPInstanceUID tag of i2 absent. *)
Definition uidless_server : Server :=
  table_server
    (one_study_table ["9999"] i1_i2_annotated
       (patient_tags "patient 7" "DOE JOHN") ["i1"; "i2"; "i3"]
       [ ("i1", [("SOPInstanceUID", JStr "u1")]);
         ("i2", [("InstanceNumber", JStr "2")]) ]).


(** The scenario with an annotation whose key ends in ":10". *)
Definition two_digit_server : Server :=
  table_server
    (one_study_table ["9999"] [("i1:10", JBool true)]
       (patient_tags "patient 7" "DOE JOHN") ["i1"; "i2"; "i3"]
       [ ("i1", [("SOPInstanceUID", JStr "u1")]);
         ("i2", [("SOPInstanceUID", JStr "u2")]) ]).

(** The walk of a concrete server. *)
Definition demo_walk (server : Server) (ignore_str : option string)
  : result Lists :=
  extract_annotated_studies server demo_credentials demo_studies_url
                            demo_series_url demo_instances_url ignore_str.


(** * The other functions of the scripts

    The [main] functions are modelled from the point where the server URL
    and the credentials are known (after [get_orthanc_credentials]); what
    they print to the terminal is left out, what they write to files or send
    to the server is their result. *)

(** [a + v] for a string [a]. *)
Definition py_str_add (a : string) (v : json) : result string :=
  match v with
  | JStr s => Ok (a ++ s)
  | _ => Raise TypeError
  end.

(** [v.casefold()]; on the letters A-Z it is [lower]. *)
Definition py_casefold_method (v : json) : result string :=
  match v with
  | JStr s => Ok (py_lower s)
  | _ => Raise AttributeError
  end.

(** [len(v)] *)
Definition py_len (v : json) : result nat :=
  match v with
  | JArr items => Ok (length items)
  | JObj fields => Ok (length fields)
  | JStr s => Ok (String.length s)
  | JNull | JBool _ | JNum _ => Raise TypeError
  end.

(** [str(n)] for a natural number. *)
Definition py_str_nat (n : nat) : string :=
  DecimalString.NilEmpty.string_of_uint (Nat.to_uint n).

(** A row of the tables of patient IDs, patient names and viewer URLs. *)
Definition UrlRow : Type := json * json * string.

(** ** [orthanc_lists_to_annotate.py] *)

Module ListsToAnnotate.

Section Pull.

Variable server : Server.
Variable server_url : string.
Variable credentials : string * string.
Variable item_type : string.
Variable name_restriction : string.

(** Lines 98-106: the body of the loop over the studies or series. *)
Definition item_body (list_df : list UrlRow) (item : string)
  : result (list UrlRow) :=
  let studies_url := server_url ++ "/studies/" in
  let series_url := server_url ++ "/series/" in
  series_info <- (if String.eqb item_type "series"
                  then server (series_url ++ item) credentials
                  else Ok (JStr "")) ;;
  study_url <- (if String.eqb item_type "study"
                then Ok (studies_url ++ item)
                else (parent <- py_getitem series_info "ParentStudy" ;;
                      py_str_add studies_url parent)) ;;
  study_info <- server study_url credentials ;;
  patient_tags <- py_getitem study_info "PatientMainDicomTags" ;;
  patient_id <- py_getitem patient_tags "PatientID" ;;
  patient_tags' <- py_getitem study_info "PatientMainDicomTags" ;;
  patient_name <- py_getitem patient_tags' "PatientName" ;;
  folded_name <- py_casefold_method patient_name ;;
  if negb (py_str_in (py_lower name_restriction) folded_name) then Ok list_df
  else
    let web_viewer_url :=
      server_url ++ "osimis-viewer/app/index.html?" ++ item_type ++ "=" ++ item in
    Ok (list_df ++ [(patient_id, patient_name, web_viewer_url)])%list.

(** Lines 69-107. *)
Definition pull_urls_from_orthanc : result (list UrlRow) :=
  let studies_url := server_url ++ "/studies/" in
  let series_url := server_url ++ "/series/" in
  all_items <- (if String.eqb item_type "study"
                then server studies_url credentials
                else server series_url credentials) ;;
  items <- py_iter all_items ;;
  for_each item_body items [].

End Pull.

(** [f"Osimis_Annotation{'_' + match_name if match_name != '' else
    ''}_Batch_{i+1}.xlsx"] *)
Definition batch_filename (match_name : string) (i : nat) : string :=
  "Osimis_Annotation"
  ++ (if negb (String.eqb match_name "") then "_" ++ match_name else "")
  ++ "_Batch_" ++ py_str_nat (i + 1) ++ ".xlsx".

(** [enumerate(split_dfs)] turned into the files written, from index [i]. *)
Fixpoint batch_files (match_name : string) (i : nat)
    (split_dfs : list (list UrlRow)) : list (string * list UrlRow) :=
  match split_dfs with
  | [] => []
  | df :: rest =>
      (batch_filename match_name i, df) :: batch_files match_name (S i) rest
  end.

(** Lines 115-138 of [main]: the spreadsheets written, in the order in which
    they are written, each with its file name.  [sample] is
    [list_df.sample(frac=1, random_state=ARGS['RANDOM_SEED'])
    .reset_index(drop=True)], the shuffle of the rows. *)
Definition main (server : Server) (sample : list UrlRow -> list UrlRow)
    (orthanc_server_url : string) (orthanc_credentials : string * string)
    (output_type by_ : string) (chunk_size : Z)
    (match_name filename_full : string)
  : result (list (string * list UrlRow)) :=
  list_df <- pull_urls_from_orthanc server orthanc_server_url
               orthanc_credentials by_ match_name ;;
  if String.eqb output_type "full" then Ok [(filename_full, list_df)]
  else
    let random_df := sample list_df in
    interval <- split_intervals random_df chunk_size ;;
    let split_dfs := np_split random_df interval in
    Ok (batch_files match_name 0 split_dfs).

End ListsToAnnotate.

(** ** [orthanc_list_annotated_images.py] *)

Module ListAnnotatedImages.

Section Images.

Variable server : Server.
Variable orthanc_server_url : string.
Variable orthanc_credentials : string * string.

(** Lines 54-61: the body of the loop over the annotated studies. *)
Definition study_body (studies_url : string) (info_df : list UrlRow)
    (study : string) : result (list UrlRow) :=
  study_info <- server (studies_url ++ study) orthanc_credentials ;;
  patient_tags <- py_getitem study_info "PatientMainDicomTags" ;;
  patient_id <- py_getitem patient_tags "PatientID" ;;
  patient_tags' <- py_getitem study_info "PatientMainDicomTags" ;;
  patient_name <- py_getitem patient_tags' "PatientName" ;;
  let web_viewer_url :=
    orthanc_server_url ++ "osimis-viewer/app/index.html?study=" ++ study in
  Ok (info_df ++ [(patient_id, patient_name, web_viewer_url)])%list.

(** Lines 35-63. *)
Definition pull_urls_from_orthanc (studies_url : string)
    (studies_list : list string) : result (list UrlRow) :=
  for_each (study_body studies_url) studies_list [].

(** Line 75: one step of the list comprehension. *)
Definition keep_annotated (studies_url : string) (studies_list : list string)
    (study : string) : result (list string) :=
  attachments <- server (studies_url ++ study ++ "/attachments/")
                        orthanc_credentials ;;
  annotated <- py_in "9999" attachments ;;
  Ok (if annotated then (studies_list ++ [study])%list else studies_list).

(** Lines 71-75 of [main]: the list of the annotated studies. *)
Definition annotated_studies : result (list string) :=
  let studies_url := orthanc_server_url ++ "studies/" in
  all_studies <- server studies_url orthanc_credentials ;;
  studies <- py_iter all_studies ;;
  for_each (keep_annotated studies_url) studies [].

(** Lines 69-85 of [main]: the table written to the spreadsheet. *)
Definition main : result (list UrlRow) :=
  let studies_url := orthanc_server_url ++ "studies/" in
  studies_list <- annotated_studies ;;
  pull_urls_from_orthanc studies_url studies_list.

End Images.

End ListAnnotatedImages.

(** ** [orthanc_files_info.py] *)

Module FilesInfo.

(** What [main] prints: the four counts, and the count of annotated studies
    when [--anno] is given. *)
Record Counts : Type := {
  n_patients : nat;
  n_studies : nat;
  n_series : nat;
  n_instances : nat;
  n_annotated : option nat
}.

Section Info.

Variable server : Server.
Variable orthanc_server_url : string.
Variable orthanc_credentials : string * string.

(** Lines 61-62: one term of the sum over the studies. *)
Definition count_body (studies_url : string) (anno_count : nat) (study : string)
  : result nat :=
  attachments <- server (studies_url ++ study ++ "/attachments/")
                        orthanc_credentials ;;
  annotated <- py_in "9999" attachments ;;
  Ok (anno_count + (if annotated then 1 else 0)).

(** Lines 37-63 of [main]. *)
Definition main (anno : bool) : result Counts :=
  let patients_url := orthanc_server_url ++ "/patients/" in
  let studies_url := orthanc_server_url ++ "/studies/" in
  let series_url := orthanc_server_url ++ "/series/" in
  let instances_url := orthanc_server_url ++ "/instances/" in
  patients_list <- server patients_url orthanc_credentials ;;
  studies_list <- server studies_url orthanc_credentials ;;
  series_list <- server series_url orthanc_credentials ;;
  instances_list <- server instances_url orthanc_credentials ;;
  patients <- py_len patients_list ;;
  studies <- py_len studies_list ;;
  series <- py_len series_list ;;
  instances <- py_len instances_list ;;
  if anno then
    studies_items <- py_iter studies_list ;;
    anno_count <- for_each (count_body studies_url) studies_items 0 ;;
    Ok {| n_patients := patients; n_studies := studies; n_series := series;
          n_instances := instances; n_annotated := Some anno_count |}
  else
    Ok {| n_patients := patients; n_studies := studies; n_series := series;
          n_instances := instances; n_annotated := None |}.

End Info.

End FilesInfo.

(** ** [orthanc_attribute_checker.py] *)

Module AttributeChecker.

(** Whether [hash(v)] is defined: lists and dicts are unhashable. *)
Definition py_hashable (v : json) : bool :=
  match v with
  | JArr _ | JObj _ => false
  | _ => true
  end.

(** [a == b] for hashable values: [True == 1] and [False == 0]. *)
Definition py_eq (a b : json) : bool :=
  match a, b with
  | JNull, JNull => true
  | JBool x, JBool y => Bool.eqb x y
  | JNum x, JNum y => Z.eqb x y
  | JBool x, JNum y | JNum y, JBool x => Z.eqb y (if x then 1 else 0)
  | JStr x, JStr y => String.eqb x y
  | _, _ => false
  end.

(** [s.add(x)] on the elements of a set, kept in insertion order. *)
Definition set_add (elements : list json) (x : json) : list json :=
  if existsb (py_eq x) elements then elements else (elements ++ [x])%list.

(** The elements of [set(values)], in insertion order. *)
Definition py_set (values : list json) : list json :=
  fold_left set_add values [].

Section Attributes.

Variable server : Server.

(** The order in which a set is iterated; Python leaves it unspecified. *)
Variable set_order : list json -> list json.

(** Lines 45-48: the body of the loop over the items. *)
Definition item_body (orthanc_url : string) (orthanc_credentials : string * string)
    (attribute : string) (all_attrs : list json) (item : string)
  : result (list json) :=
  item_info <- server (orthanc_url ++ item) orthanc_credentials ;;
  main_tags <- py_getitem item_info "MainDicomTags" ;;
  tmp_attr <- py_getitem main_tags attribute ;;
  Ok (all_attrs ++ [tmp_attr])%list.

(** Lines 32-49; [list(set(all_attrs))] raises [TypeError] on an unhashable
    value. *)
Definition retrieve_all_attributes (orthanc_url : string)
    (orthanc_credentials : string * string) (attribute : string)
  : result (list json) :=
  all_items <- server orthanc_url orthanc_credentials ;;
  items <- py_iter all_items ;;
  all_attrs <- for_each (item_body orthanc_url orthanc_credentials attribute)
                        items [] ;;
  if forallb py_hashable all_attrs then Ok (set_order (py_set all_attrs))
  else Raise TypeError.

End Attributes.

End AttributeChecker.

(** ** [orthanc_delete.py]

    The script reads from the terminal and sends DELETE requests.  The state
    it runs in holds what is still to be typed and the DELETE requests sent
    so far; a step returns its outcome with the new state, also when it
    raises. *)

Module Delete.

Inductive failure : Type :=
| Requests (e : exn)
| EOFError
| UnboundLocalError.

Record World : Type := {
  getpass_answers : list string;
  input_answers : list string;
  deleted : list (string * (string * string))
}.

Definition M (A : Type) : Type := World -> (failure + A) * World.

Definition ret {A : Type} (a : A) : M A := fun w => (inr a, w).

Definition fail {A : Type} (f : failure) : M A := fun w => (inl f, w).

Definition bindM {A B : Type} (m : M A) (k : A -> M B) : M B :=
  fun w =>
    match m w with
    | (inr a, w') => k a w'
    | (inl f, w') => (inl f, w')
    end.

Definition lift {A : Type} (r : result A) : M A :=
  match r with
  | Ok a => ret a
  | Raise e => fail (Requests e)
  end.

(** [getpass.getpass(...)] *)
Definition getpass : M string :=
  fun w =>
    match getpass_answers w with
    | [] => (inl EOFError, w)
    | answer :: rest =>
        (inr answer,
         {| getpass_answers := rest; input_answers := input_answers w;
            deleted := deleted w |})
    end.

(** [input(...)] *)
Definition input : M string :=
  fun w =>
    match input_answers w with
    | [] => (inl EOFError, w)
    | answer :: rest =>
        (inr answer,
         {| getpass_answers := getpass_answers w; input_answers := rest;
            deleted := deleted w |})
    end.

Section Script.

(** [requests.get(url, auth=credentials).status_code] *)
Variable status_code : string -> string * string -> result Z.

(** [requests.get(url, auth=credentials).json()] *)
Variable server : Server.

(** What [requests.delete(url, auth=credentials)] does once the request is
    sent: it returns, or it raises. *)
Variable delete_outcome : string -> string * string -> result unit.

(** [requests.delete(url, auth=credentials)] *)
Definition requests_delete (url : string) (credentials : string * string)
  : M unit :=
  fun w =>
    let w' := {| getpass_answers := getpass_answers w;
                 input_answers := input_answers w;
                 deleted := (deleted w ++ [(url, credentials)])%list |} in
    match delete_outcome url credentials with
    | Ok tt => (inr tt, w')
    | Raise e => (inl (Requests e), w')
    end.

(** Lines 48-56: the loop, entered with [connection_status == 0], the tests
    that are left and the credentials assigned so far. *)
Fixpoint check_loop (server_url : string) (connection_tests : nat)
    (credentials : option (string * string))
  : M (bool * option (string * string)) :=
  match connection_tests with
  | O => ret (false, credentials)
  | S tests_left =>
      bindM getpass (fun username =>
      bindM getpass (fun password =>
      let credentials := (username, password) in
      bindM (lift (status_code server_url credentials)) (fun code =>
      if Z.eqb code 200 then ret (true, Some credentials)
      else check_loop server_url tests_left (Some credentials))))
  end.

(** Lines 35-58. *)
Definition check_credentials (server_url : string)
  : M (bool * (string * string)) :=
  bindM (check_loop server_url 3 None) (fun r =>
  match snd r with
  | Some credentials => ret (fst r, credentials)
  | None => fail UnboundLocalError
  end).

(** Lines 73-75: the loop over the items. *)
Fixpoint delete_loop (type_ orthanc_url : string)
    (credentials : string * string) (items : list string) : M unit :=
  match items with
  | [] => ret tt
  | item :: rest =>
      let item_url :=
        orthanc_url ++ item
        ++ (if String.eqb type_ "annotations" then "/attachments/9999/" else "") in
      bindM (requests_delete item_url credentials) (fun _ =>
      delete_loop type_ orthanc_url credentials rest)
  end.

(** Lines 61-76. *)
Definition delete_from_server (type_ server_url : string)
    (credentials : string * string) : M unit :=
  let orthanc_url :=
    server_url
    ++ (if String.eqb type_ "annotations" then "/studies/" else "/patients/") in
  bindM (lift (server orthanc_url credentials)) (fun orthanc_list =>
  bindM (lift (py_iter orthanc_list)) (fun items =>
  bindM (lift (py_len orthanc_list)) (fun _ =>
  delete_loop type_ orthanc_url credentials items))).

(** Lines 79-93 of [main]. *)
Definition main (type_ orthanc_server_url : string) : M unit :=
  bindM (check_credentials orthanc_server_url) (fun r =>
  let status := fst r in
  let credentials := snd r in
  if negb status then ret tt
  else
    bindM input (fun prompt =>
    if String.eqb prompt "DELETE"
    then delete_from_server type_ orthanc_server_url credentials
    else ret tt)).

End Script.

End Delete.

(** ** Vocabulary of the further statements *)



(** The test of the list comprehension of [ListAnnotatedImages] on one
    study, as a boolean: the attachments are listed and '9999' is among
    them. *)
Definition is_annotated (server : Server) (credentials : string * string)
    (studies_url study : string) : bool :=
  match server (studies_url ++ study ++ "/attachments/") credentials with
  | Ok attachments =>
      match py_in "9999" attachments with
      | Ok annotated => annotated
      | Raise _ => false
      end
  | Raise _ => false
  end.

(** The value that stands for [v] among the values equal to it in Python:
    [True] and [1], [False] and [0] are equal. *)
Definition py_key (v : json) : json :=
  match v with
  | JBool b => JNum (if b then 1 else 0)
  | _ => v
  end.

(** [row] is the row of [study] in the table of
    [orthanc_list_annotated_images.py]: the viewer URL of the study and the
    PatientID and PatientName tags of its document. *)
Definition row_of_study (server : Server) (orthanc_server_url : string)
    (credentials : string * string) (studies_url study : string)
    (row : UrlRow) : Prop :=
  snd row = orthanc_server_url ++ "osimis-viewer/app/index.html?study=" ++ study /\
  exists study_info tags,
    server (studies_url ++ study) credentials = Ok study_info /\
    py_getitem study_info "PatientMainDicomTags" = Ok (JObj tags) /\
    dict_get tags "PatientID" = Some (fst (fst row)) /\
    dict_get tags "PatientName" = Some (snd (fst row)).

(** The credentials were tried at [server_url] and the server answered with
    a status other than 200. *)
Definition rejected (status_code : string -> string * string -> result Z)
    (server_url : string) (credentials : string * string) : Prop :=
  exists code, status_code server_url credentials = Ok code /\ code <> 200%Z.

(** A server that accepts the credentials admin / pw only. *)
Definition login_status (url : string) (credentials : string * string)
  : result Z :=
  Ok (if String.eqb (fst credentials) "admin" && String.eqb (snd credentials) "pw"
      then 200%Z else 401%Z).

(** Every DELETE request returns. *)
Definition delete_returns (url : string) (credentials : string * string)
  : result unit := Ok tt.

(** A terminal at which a wrong password is typed first, then the right one,
    then the confirmation. *)
Definition typing_world : Delete.World :=
  {| Delete.getpass_answers := ["admin"; "oops"; "admin"; "pw"];
     Delete.input_answers := ["DELETE"];
     Delete.deleted := [] |}.

(** What [Delete.delete_from_server] sends a DELETE request to for [item],
    with the credentials it uses. *)
Definition delete_target (type_ server_url : string)
    (credentials : string * string) (item : string)
  : string * (string * string) :=
  ((server_url
    ++ (if String.eqb type_ "annotations" then "/studies/" else "/patients/"))
   ++ item
   ++ (if String.eqb type_ "annotations" then "/attachments/9999/" else ""),
   credentials).

(** A server with three studies, of which S1 and S3 are annotated, their
    three series and four instances. *)
Definition catalogue_url : string := "http://orthanc:8042".

Definition catalogue_study (patient_id patient_name description : string)
    (series : list string) : json :=
  JObj [("PatientMainDicomTags", JObj (patient_tags patient_id patient_name));
        ("MainDicomTags", JObj [("StudyDescription", JStr description)]);
        ("Series", JArr series)].

Definition catalogue_series (parent : string) (instances : list string) : json :=
  JObj [("ParentStudy", JStr parent); ("Instances", JArr instances)].

Definition catalogue_table : list (string * json) :=
  [ (catalogue_url ++ "/patients/", JArr ["P1"; "P2"]);
    (catalogue_url ++ "/studies/", JArr ["S1"; "S2"; "S3"]);
    (catalogue_url ++ "/series/", JArr ["R1"; "R2"; "R3"]);
    (catalogue_url ++ "/instances/", JArr ["i1"; "i2"; "i3"; "i4"]);
    (catalogue_url ++ "/patients/P1", JObj []);
    (catalogue_url ++ "/studies/S1",
     catalogue_study "anon_ib_01" "ANON_IB 01" "CHEST" ["R1"]);
    (catalogue_url ++ "/studies/S2",
     catalogue_study "fracture_02" "Fracture Unknown" "RIBS" ["R2"]);
    (catalogue_url ++ "/studies/S3",
     catalogue_study "anon_ib_03" "anon_ib 03" "CHEST" ["R3"]);
    (catalogue_url ++ "/studies/S1/attachments/", JArr ["9999"]);
    (catalogue_url ++ "/studies/S2/attachments/", JArr []);
    (catalogue_url ++ "/studies/S3/attachments/", JArr ["dicom"; "9999"]);
    (catalogue_url ++ "/series/R1", catalogue_series "S1" ["i1"; "i2"]);
    (catalogue_url ++ "/series/R2", catalogue_series "S2" ["i3"]);
    (catalogue_url ++ "/series/R3", catalogue_series "S3" ["i4"]) ].

Definition catalogue_server : Server := table_server catalogue_table.

(** The rows of the catalogue whose patient name contains "anon_ib". *)
Definition catalogue_anon_rows : list UrlRow :=
  [ (JStr "anon_ib_01", JStr "ANON_IB 01",
     "http://orthanc:8042osimis-viewer/app/index.html?study=S1");
    (JStr "anon_ib_03", JStr "anon_ib 03",
     "http://orthanc:8042osimis-viewer/app/index.html?study=S3") ].


(** * Properties *)

(** ** Python strings *)

Lemma prefix_append sub s :
  String.prefix sub s = true <-> exists rest, s = sub ++ rest.
Proof.
  revert s. induction sub as [|c sub IH]; intros s.
  - split; [intros _; exists s; reflexivity | destruct s; reflexivity].
  - destruct s as [|d s]; simpl.
    + split; [discriminate | intros [rest H]; discriminate H].
    + destruct (ascii_dec c d) as [<-|Hne].
      * rewrite IH. split; intros [rest H]; exists rest.
        -- rewrite H. reflexivity.
        -- injection H as H. exact H.
      * split; [discriminate|]. intros [rest H]. injection H as H _.
        congruence.
Qed.

(** [sub in s] holds exactly when [s] is [before ++ sub ++ after]. *)
Lemma py_str_in_spec sub s :
  py_str_in sub s = true <-> exists before after, s = before ++ sub ++ after.
Proof.
  induction s as [|d s IH].
  - cbn [py_str_in]. rewrite orb_false_r, prefix_append. split.
    + intros [rest H]. exists "", rest. exact H.
    + intros (before & after & H). destruct before as [|b before].
      * exists after. exact H.
      * discriminate H.
  - cbn [py_str_in]. rewrite orb_true_iff, prefix_append, IH. split.
    + intros [[rest H] | (before & after & H)].
      * exists "", rest. exact H.
      * exists (String d before), after. rewrite H. reflexivity.
    + intros (before & after & H). destruct before as [|b before].
      * left. exists after. exact H.
      * right. injection H as _ H. exists before, after. exact H.
Qed.

Example lower_mixed : py_lower "Patient_ANON 001" = "patient_anon 001".
Proof. reflexivity. Qed.

Example slice_examples :
  py_str_slice_to "abc:0" (-2) = "abc" /\
  py_str_slice_to "a" (-2) = "" /\
  py_str_slice_to "" (-2) = "".
Proof. repeat split; reflexivity. Qed.

(** ** The error monad and the loops *)

(** Case analysis on the outcome of the next request or lookup of a chain of
    binds, and on the test of the next conditional; loops are left alone. *)
Ltac next_outcome :=
  match goal with
  | |- context [bind ?r _] =>
      lazymatch r with
      | for_each _ _ _ => fail
      | collect _ _ => fail
      | bind _ _ => fail
      | (if _ then _ else _) => fail
      | _ => destruct r; cbn [bind]
      end
  | |- context [if ?b then _ else _] => destruct b; cbn [bind]
  end.

Ltac outcomes := repeat (next_outcome; try reflexivity).

Lemma for_each_app (X S : Type) (body : S -> X -> result S) xs ys st :
  for_each body (xs ++ ys) st = (st' <- for_each body xs st ;; for_each body ys st').
Proof.
  revert st. induction xs as [|x xs IH]; intros st; simpl; [reflexivity|].
  destruct (body st x) as [st'|e]; simpl; [apply IH | reflexivity].
Qed.

Lemma for_each_raise_at (X S : Type) (body : S -> X -> result S)
    before x after st st' e :
  for_each body before st = Ok st' ->
  body st' x = Raise e ->
  for_each body (before ++ x :: after) st = Raise e.
Proof.
  intros Hb Hx. rewrite for_each_app, Hb. simpl. rewrite Hx. reflexivity.
Qed.

Lemma for_each_unchanged (X S : Type) (body : S -> X -> result S) xs st :
  (forall x, In x xs -> body st x = Ok st) ->
  for_each body xs st = Ok st.
Proof.
  induction xs as [|x xs IH]; intros H; simpl; [reflexivity|].
  rewrite (H x (or_introl eq_refl)). simpl. apply IH.
  intros y Hy. apply H. right. exact Hy.
Qed.

Lemma push_nil st : push st [] = st.
Proof.
  destruct st as [[a p] n]. unfold push. simpl. rewrite !app_nil_r. reflexivity.
Qed.

Lemma push_app st vs ws : push st (vs ++ ws) = push (push st vs) ws.
Proof.
  destruct st as [[a p] n]. unfold push. rewrite !map_app, !app_assoc.
  reflexivity.
Qed.

(** A loop whose body appends what [f] emits appends what [collect f] emits. *)
Lemma for_each_push (X : Type) (body : Lists -> X -> result Lists)
    (f : X -> result (list Visit)) xs :
  (forall st x, body st x = (vs <- f x ;; Ok (push st vs))) ->
  forall st, for_each body xs st = (vs <- collect f xs ;; Ok (push st vs)).
Proof.
  intros Hbody. induction xs as [|x xs IH]; intros st; simpl.
  - rewrite push_nil. reflexivity.
  - rewrite Hbody. destruct (f x) as [r|e]; simpl; [|reflexivity].
    rewrite IH. destruct (collect f xs) as [rs|e]; simpl; [|reflexivity].
    rewrite push_app. reflexivity.
Qed.

(** ** The loops append one element per visit *)

Section Simulation.

Variable server : Server.
Variable orthanc_credentials : string * string.
Variables studies_url series_url instances_url : string.
Variable ignore_str : option string.

Lemma instance_body_visits uuids pid pname study series st instance :
  instance_body server orthanc_credentials instances_url uuids pid pname st instance
  = (vs <- instance_visits server orthanc_credentials instances_url
             uuids pid pname study series instance ;;
     Ok (push st vs)).
Proof.
  unfold instance_body, instance_visits, fetched_uid.
  destruct (py_list_in instance uuids); simpl.
  - destruct (server _ _) as [info|e]; simpl; [|reflexivity].
    destruct (py_getitem info _) as [tags|e]; simpl; [|reflexivity].
    destruct (py_getitem tags _) as [uid|e]; simpl; [|reflexivity].
    destruct st as [[a p] n]. reflexivity.
  - rewrite push_nil. reflexivity.
Qed.

Lemma series_body_visits uuids pid pname study st series :
  series_body server orthanc_credentials series_url instances_url
              uuids pid pname st series
  = (vs <- series_visits server orthanc_credentials series_url instances_url
             uuids pid pname study series ;;
     Ok (push st vs)).
Proof.
  unfold series_body, series_visits, fetched_instances.
  destruct (server _ _) as [info|e]; simpl; [|reflexivity].
  destruct (py_getitem info _) as [v|e]; simpl; [|reflexivity].
  destruct (py_iter v) as [instances|e]; simpl; [|reflexivity].
  apply for_each_push. intros st' x. apply instance_body_visits.
Qed.

Lemma study_body_visits st study :
  study_body server orthanc_credentials studies_url series_url instances_url
             ignore_str st study
  = (vs <- study_visits server orthanc_credentials studies_url series_url
             instances_url ignore_str study ;;
     Ok (push st vs)).
Proof.
  unfold study_body, study_visits. outcomes;
    cbn [negb bind]; rewrite ?push_nil; try reflexivity.
  apply for_each_push. intros st' x. apply series_body_visits.
Qed.

Lemma extract_visits :
  extract_annotated_studies server orthanc_credentials studies_url series_url
                            instances_url ignore_str
  = (vs <- walk_visits server orthanc_credentials studies_url series_url
             instances_url ignore_str ;;
     Ok (map v_uid vs, map v_patient_id vs, map v_patient_name vs)).
Proof.
  unfold extract_annotated_studies, walk_visits.
  destruct (server studies_url _) as [all|e]; simpl; [|reflexivity].
  destruct (py_iter all) as [studies|e]; simpl; [|reflexivity].
  erewrite for_each_push; [|intros; apply study_body_visits]. reflexivity.
Qed.

End Simulation.

(** ** The requests of one study, one series, one instance *)

Section Requests.

Variable server : Server.
Variable orthanc_credentials : string * string.
Variables studies_url series_url instances_url : string.
Variable ignore_str : option string.

Lemma instance_body_fetched uuids pid pname st instance :
  instance_body server orthanc_credentials instances_url uuids pid pname st instance
  = if py_list_in instance uuids
    then (uid <- fetched_uid server orthanc_credentials instances_url instance ;;
          Ok (append_rows st [(uid, pid, pname)]))
    else Ok st.
Proof.
  unfold instance_body, fetched_uid.
  destruct (py_list_in instance uuids); simpl; [|reflexivity].
  destruct (server _ _) as [info|e]; simpl; [|reflexivity].
  destruct (py_getitem info _) as [tags|e]; simpl; [|reflexivity].
  destruct (py_getitem tags _) as [uid|e]; simpl; [|reflexivity].
  destruct st as [[a p] n]. reflexivity.
Qed.

Lemma series_body_fetched uuids pid pname st series :
  series_body server orthanc_credentials series_url instances_url
              uuids pid pname st series
  = (instances <- fetched_instances server orthanc_credentials series_url series ;;
     for_each (instance_body server orthanc_credentials instances_url
                             uuids pid pname) instances st).
Proof.
  unfold series_body, fetched_instances.
  destruct (server _ _) as [info|e]; simpl; [|reflexivity].
  destruct (py_getitem info _) as [v|e]; simpl; [|reflexivity].
  destruct (py_iter v); reflexivity.
Qed.

Lemma study_body_no_annotation st study :
  no_annotation server orthanc_credentials studies_url study ->
  study_body server orthanc_credentials studies_url series_url instances_url
             ignore_str st study = Ok st.
Proof.
  intros (att & Hatt & Hin). unfold study_body. rewrite Hatt. simpl.
  rewrite Hin. reflexivity.
Qed.

Lemma study_body_annotated st study annotation raw_id raw_name all_series :
  annotated_study server orthanc_credentials studies_url
                  study annotation raw_id raw_name all_series ->
  study_body server orthanc_credentials studies_url series_url instances_url
             ignore_str st study
  = if ignored ignore_str (py_replace " " "_" raw_id) then Ok st
    else (series_list <- py_iter all_series ;;
          for_each (series_body server orthanc_credentials series_url
                      instances_url (instance_uuids_of annotation)
                      (py_replace " " "_" raw_id) (py_replace " " "_" raw_name))
                   series_list st).
Proof.
  intros ((att & Hatt & Hin) & Hann & info & tags & (Hinfo & Htags) & Hid & Hname & Hser).
  unfold study_body. rewrite Hatt. simpl. rewrite Hin. simpl.
  unfold annotation_of in Hann. rewrite Hann. simpl.
  rewrite Hinfo. simpl. rewrite Htags. simpl. rewrite Hid, Hname. simpl.
  rewrite Hser. reflexivity.
Qed.

Lemma append_rows_nil st : append_rows st [] = st.
Proof.
  destruct st as [[a p] n]. unfold append_rows. simpl. rewrite !app_nil_r.
  reflexivity.
Qed.

Lemma append_rows_app st rs ts :
  append_rows st (rs ++ ts) = append_rows (append_rows st rs) ts.
Proof.
  destruct st as [[a p] n]. unfold append_rows. rewrite !map_app, !app_assoc.
  reflexivity.
Qed.

(** The loop over the instances of a series appends one row for every listed
    instance that is in the annotation set, in the order of the listing,
    when the server gives a SOPInstanceUID for each of them. *)
Lemma instance_loop_rows uuids pid pname (uid : string -> json) instances :
  (forall i, In i instances -> py_list_in i uuids = true ->
             fetched_uid server orthanc_credentials instances_url i = Ok (uid i)) ->
  forall st,
    for_each (instance_body server orthanc_credentials instances_url
                            uuids pid pname) instances st
    = Ok (append_rows st
            (map (fun i => (uid i, pid, pname))
                 (filter (fun i => py_list_in i uuids) instances))).
Proof.
  induction instances as [|i instances IH]; intros Huid st; simpl.
  - rewrite append_rows_nil. reflexivity.
  - rewrite instance_body_fetched.
    destruct (py_list_in i uuids) eqn:Hin; simpl.
    + rewrite (Huid i (or_introl eq_refl) Hin). simpl.
      rewrite IH by (intros j Hj; apply Huid; right; exact Hj).
      rewrite <- append_rows_app. reflexivity.
    + apply IH. intros j Hj. apply Huid. right. exact Hj.
Qed.

(** The loop over the series of a study does the same for the instances of
    all its series, series by series. *)
Lemma series_loop_rows uuids pid pname (insts : string -> list string)
    (uid : string -> json) series_list :
  (forall r, In r series_list ->
             fetched_instances server orthanc_credentials series_url r
             = Ok (insts r)) ->
  (forall r i, In r series_list -> In i (insts r) ->
               py_list_in i uuids = true ->
               fetched_uid server orthanc_credentials instances_url i
               = Ok (uid i)) ->
  forall st,
    for_each (series_body server orthanc_credentials series_url instances_url
                          uuids pid pname) series_list st
    = Ok (append_rows st
            (map (fun i => (uid i, pid, pname))
                 (filter (fun i => py_list_in i uuids)
                         (flat_map insts series_list)))).
Proof.
  induction series_list as [|r series_list IH]; intros Hinsts Huid st; simpl.
  - rewrite append_rows_nil. reflexivity.
  - rewrite series_body_fetched, (Hinsts r (or_introl eq_refl)). simpl.
    rewrite (instance_loop_rows uuids pid pname uid)
      by (intros i Hi; apply (Huid r i (or_introl eq_refl) Hi)).
    simpl.
    rewrite IH.
    + rewrite <- append_rows_app, filter_app, map_app. reflexivity.
    + intros r' Hr'. apply Hinsts. right. exact Hr'.
    + intros r' i Hr'. apply Huid. right. exact Hr'.
Qed.

End Requests.


(** ** The end-to-end scenario *)

Lemma instance_uuids_two (k1 k2 : string) (v1 v2 : json) :
  py_truthy v1 = true -> py_truthy v2 = true ->
  instance_uuids_of [(k1, v1); (k2, v2)]
  = [py_str_slice_to k1 (-2); py_str_slice_to k2 (-2)].
Proof.
  intros H1 H2. unfold instance_uuids_of. simpl.
  rewrite String.eqb_refl. simpl. rewrite H1.
  destruct (String.eqb k1 k2) eqn:E; simpl.
  - rewrite H1. reflexivity.
  - rewrite String.eqb_refl. simpl. rewrite H2. reflexivity.
Qed.

(** C1.  A walk over the single study S1, whose annotation attachment maps
    the keys "i1:0" and "i2:0" to truthy values, whose only series R1 lists
    the instances i1, i2, i3 in that order, and whose instances i1 and i2
    carry the SOPInstanceUIDs "u1" and "u2", returns the lists that [main]
    zips into exactly the rows ("u1", id, name), ("u2", id, name), where id
    and name are the patient ID and patient name of S1 as the walk derives
    them (spaces replaced by underscores).  Nothing is asked about i3: it is
    not requested. *)
Theorem scenario_two_annotated_instances
    (server : Server) (credentials : string * string)
    (studies_url series_url instances_url : string)
    (ignore_str : option string)
    (v1 v2 : json) (raw_id raw_name : string) :
  py_truthy v1 = true ->
  py_truthy v2 = true ->
  server studies_url credentials = Ok (JArr ["S1"]) ->
  annotated_study server credentials studies_url "S1"
                  [("i1:0", v1); ("i2:0", v2)] raw_id raw_name (JArr ["R1"]) ->
  ignored ignore_str (py_replace " " "_" raw_id) = false ->
  fetched_instances server credentials series_url "R1" = Ok ["i1"; "i2"; "i3"] ->
  fetched_uid server credentials instances_url "i1" = Ok (JStr "u1") ->
  fetched_uid server credentials instances_url "i2" = Ok (JStr "u2") ->
  exists st,
    extract_annotated_studies server credentials studies_url series_url
                              instances_url ignore_str = Ok st /\
    rows_of st
    = [ (JStr "u1", py_replace " " "_" raw_id, py_replace " " "_" raw_name);
        (JStr "u2", py_replace " " "_" raw_id, py_replace " " "_" raw_name) ].
Proof.
  intros Hv1 Hv2 Hlist Hstudy Hign Hinst Hu1 Hu2.
  eexists. split.
  - unfold extract_annotated_studies. rewrite Hlist.
    cbn [bind py_iter for_each].
    rewrite (study_body_annotated _ _ _ series_url instances_url ignore_str _ _ _ _ _ _ Hstudy).
    rewrite Hign. cbn [bind py_iter].
    rewrite (series_loop_rows _ _ _ _ _ _ _
               (fun _ => ["i1"; "i2"; "i3"])
               (fun i => if String.eqb i "i1" then JStr "u1" else JStr "u2")).
    + reflexivity.
    + intros r [<-|[]]. exact Hinst.
    + intros r i _ [<-|[<-|[<-|[]]]] Hin.
      * exact Hu1.
      * exact Hu2.
      * rewrite instance_uuids_two in Hin by assumption. discriminate Hin.
  - rewrite instance_uuids_two by assumption. reflexivity.
Qed.

Lemma scenario_two_annotated_instances_witness :
  exists st,
    demo_walk scenario_server None = Ok st /\
    rows_of st = [ (JStr "u1", "patient_7", "DOE_JOHN");
                   (JStr "u2", "patient_7", "DOE_JOHN") ].
Proof.
  apply (scenario_two_annotated_instances scenario_server demo_credentials
           demo_studies_url demo_series_url demo_instances_url None
           (JBool true) (JBool true) "patient 7" "DOE JOHN");
    try reflexivity.
  split; [eexists; split; reflexivity|].
  split; [reflexivity|].
  eexists; eexists.
  split; [split; reflexivity|].
  repeat split; reflexivity.
Defined.

(** ** The three lists stay aligned *)

(** C9.  Whenever the walk returns, its three lists have the same length and
    are aligned: there is one position per visit of the walk, in the order of
    the visits, and position k of the three lists holds the SOPInstanceUID,
    the patient ID and the patient name of visit k.  When the walk raises
    instead, no list is returned, and the visits raise the same exception. *)
Theorem three_lists_aligned
    (server : Server) (credentials : string * string)
    (studies_url series_url instances_url : string)
    (ignore_str : option string) :
  match extract_annotated_studies server credentials studies_url series_url
                                  instances_url ignore_str with
  | Ok (annotated_instances, patient_ids, patient_names) =>
      length annotated_instances = length patient_ids /\
      length patient_ids = length patient_names /\
      exists visits,
        walk_visits server credentials studies_url series_url instances_url
                    ignore_str = Ok visits /\
        length visits = length annotated_instances /\
        rows_of (annotated_instances, patient_ids, patient_names)
        = map result_of visits /\
        forall k,
          nth_error annotated_instances k
          = option_map v_uid (nth_error visits k) /\
          nth_error patient_ids k
          = option_map v_patient_id (nth_error visits k) /\
          nth_error patient_names k
          = option_map v_patient_name (nth_error visits k)
  | Raise e =>
      walk_visits server credentials studies_url series_url instances_url
                  ignore_str = Raise e
  end.
Proof.
  rewrite extract_visits.
  destruct (walk_visits _ _ _ _ _ _) as [visits|e]; simpl; [|reflexivity].
  rewrite !length_map. repeat split.
  exists visits. repeat split.
  - induction visits as [|v visits IH]; simpl; [reflexivity|].
    rewrite IH. reflexivity.
  - apply nth_error_map.
  - apply nth_error_map.
  - apply nth_error_map.
Qed.

(** ** The walk depends on the answers of the server only *)


Section Determinism.

Variables server1 server2 : Server.
Hypothesis same_answers : forall url credentials,
  server1 url credentials = server2 url credentials.

Variable credentials : string * string.
Variables studies_url series_url instances_url : string.
Variable ignore_str : option string.





End Determinism.



(** ** Every visit is backed by the answers of the server *)


Lemma py_getitem_Ok v key x :
  py_getitem v key = Ok x ->
  exists fields, v = JObj fields /\ dict_get fields key = Some x.
Proof.
  destruct v; simpl; try discriminate.
  destruct (dict_get fields key) eqn:E; [|discriminate].
  intros [= <-]. eauto.
Qed.


Section Soundness.

Variable server : Server.
Variable orthanc_credentials : string * string.
Variables studies_url series_url instances_url : string.
Variable ignore_str : option string.



End Soundness.



(** ** Patient ID and patient name: spaces become underscores *)



Lemma one_study_annotated annotation patient_id patient_name instances instance_tags :
  annotated_study
    (table_server (one_study_table ["9999"] annotation
                     (patient_tags patient_id patient_name)
                     instances instance_tags))
    demo_credentials demo_studies_url "S1"
    annotation patient_id patient_name (JArr ["R1"]).
Proof.
  split; [eexists; split; reflexivity|].
  split; [reflexivity|].
  eexists; eexists.
  split; [split; reflexivity|].
  split; [reflexivity|]. split; reflexivity.
Qed.


(** ** The exclusion string *)




(** ** Studies that add nothing *)

(** C5, as stated, fails when an annotated study without any matching
    instance lacks a patient tag: S1 carries the annotation attachment, the
    annotation names only an instance that its series does not list, and the
    walk raises [KeyError] for the absent PatientName. *)
Lemma unmatched_study_raises :
  has_annotation nameless_server demo_credentials demo_studies_url "S1" /\
  annotation_of nameless_server demo_credentials demo_studies_url "S1"
                [("zz:0", JBool true)] /\
  fetched_instances nameless_server demo_credentials demo_series_url "R1"
  = Ok ["i1"; "i2"; "i3"] /\
  filter (fun i => py_list_in i (instance_uuids_of [("zz:0", JBool true)]))
         ["i1"; "i2"; "i3"] = [] /\
  demo_walk nameless_server None = Raise (KeyError "PatientName").
Proof.
  split; [eexists; split; reflexivity|]. repeat split; reflexivity.
Qed.

(** C5, amended.  A study without the annotation attachment leaves the three
    lists as they were and raises nothing.  So does an annotated study none
    of whose listed instances is in the annotation set, provided its
    PatientID and PatientName tags and its series are there and the server
    lists the instances of each of its series; the instance IDs of the
    annotation that match no listed instance play no role. *)
Theorem unannotated_or_unmatched_study_adds_nothing
    (server : Server) (credentials : string * string)
    (studies_url series_url instances_url : string)
    (ignore_str : option string) (st : Lists) (study : string) :
  (no_annotation server credentials studies_url study ->
   study_body server credentials studies_url series_url instances_url
              ignore_str st study = Ok st) /\
  (forall annotation raw_id raw_name all_series series_list,
     annotated_study server credentials studies_url
                     study annotation raw_id raw_name all_series ->
     py_iter all_series = Ok series_list ->
     (forall r, In r series_list ->
        exists instances,
          fetched_instances server credentials series_url r = Ok instances /\
          forall i, In i instances ->
                    py_list_in i (instance_uuids_of annotation) = false) ->
     study_body server credentials studies_url series_url instances_url
                ignore_str st study = Ok st).
Proof.
  split.
  - apply study_body_no_annotation.
  - intros annotation raw_id raw_name all_series series_list Hstudy Hiter Hnone.
    rewrite (study_body_annotated _ _ _ series_url instances_url ignore_str
               st _ _ _ _ _ Hstudy).
    destruct (ignored ignore_str _); [reflexivity|].
    rewrite Hiter. cbn [bind].
    apply for_each_unchanged. intros r Hr.
    destruct (Hnone r Hr) as (instances & Hinsts & Hout).
    rewrite series_body_fetched, Hinsts. cbn [bind].
    apply for_each_unchanged. intros i Hi.
    rewrite instance_body_fetched, (Hout i Hi). reflexivity.
Qed.

Lemma unannotated_or_unmatched_study_adds_nothing_witness :
  study_body unannotated_server demo_credentials demo_studies_url
             demo_series_url demo_instances_url None ([], [], []) "S1"
  = Ok ([], [], []) /\
  study_body unmatched_server demo_credentials demo_studies_url
             demo_series_url demo_instances_url None ([], [], []) "S1"
  = Ok ([], [], []).
Proof.
  split.
  - apply (proj1 (unannotated_or_unmatched_study_adds_nothing
                    unannotated_server demo_credentials demo_studies_url
                    demo_series_url demo_instances_url None ([], [], []) "S1")).
    eexists. split; reflexivity.
  - apply (proj2 (unannotated_or_unmatched_study_adds_nothing
                    unmatched_server demo_credentials demo_studies_url
                    demo_series_url demo_instances_url None ([], [], []) "S1")
             [("zz:0", JBool true)] "patient 7" "DOE JOHN" (JArr ["R1"]) ["R1"]).
    + apply one_study_annotated.
    + reflexivity.
    + intros r [<-|[]]. exists ["i1"; "i2"; "i3"]. split; [reflexivity|].
      intros i [<-|[<-|[<-|[]]]]; reflexivity.
Defined.

(** ** Absent tags *)

(** C2, as stated, fails: the walk of a server whose study S1 has no
    PatientID tag raises Python's [KeyError], which carries the name of the
    absent field and nothing else; the ID of the study is not named. *)
Lemma key_error_names_field_only :
  demo_walk idless_server None = Raise (KeyError "PatientID") /\
  exn_args (KeyError "PatientID") = ["PatientID"] /\
  existsb (py_str_in "S1") (exn_args (KeyError "PatientID")) = false.
Proof. repeat split; reflexivity. Qed.

Section Missing.

Variable server : Server.
Variable credentials : string * string.
Variables studies_url series_url instances_url : string.
Variable ignore_str : option string.

Lemma missing_field_study_body st study resource field :
  missing_field server credentials studies_url series_url instances_url
                ignore_str st study resource field ->
  study_body server credentials studies_url series_url instances_url
             ignore_str st study = Raise (KeyError field).
Proof.
  intros H.
  destruct H as
    [ annotation info tags (att & Hatt & Hin) Hann (Hinfo & Htags) Hid
    | annotation info tags raw_id (att & Hatt & Hin) Hann (Hinfo & Htags) Hid Hname
    | annotation raw_id raw_name all_series sb series sa st1 ib instance ia st2
        info tags Hstudy Hign Hiter Hsb Hinsts Hib Hmatch Hinfo Htags Huid ].
  - unfold study_body. rewrite Hatt. cbn [bind]. rewrite Hin. cbn [bind negb].
    unfold annotation_of in Hann. rewrite Hann. cbn [bind py_fields].
    rewrite Hinfo. cbn [bind]. rewrite Htags. cbn [bind py_getitem].
    rewrite Hid. reflexivity.
  - unfold study_body. rewrite Hatt. cbn [bind]. rewrite Hin. cbn [bind negb].
    unfold annotation_of in Hann. rewrite Hann. cbn [bind py_fields].
    rewrite Hinfo. cbn [bind]. rewrite Htags. cbn [bind py_getitem].
    rewrite Hid. cbn [bind py_replace_method]. rewrite Hname. reflexivity.
  - rewrite (study_body_annotated _ _ _ series_url instances_url ignore_str
               st _ _ _ _ _ Hstudy).
    rewrite Hign, Hiter. cbn [bind].
    apply (for_each_raise_at _ _ _ _ _ _ _ _ _ Hsb).
    rewrite series_body_fetched, Hinsts. cbn [bind].
    apply (for_each_raise_at _ _ _ _ _ _ _ _ _ Hib).
    unfold instance_body. rewrite Hmatch. cbn [negb].
    rewrite Hinfo. cbn [bind]. rewrite Htags. cbn [bind py_getitem].
    rewrite Huid. reflexivity.
Qed.

End Missing.

(** C2, amended.  When the walk, having walked the studies before [study]
    without failure, requests in [study] a resource on which a tag it reads
    is absent (the PatientID or the PatientName of the study, or the
    SOPInstanceUID of an instance of the annotation set), the whole walk
    fails with a [KeyError] that carries the name of the absent field, and
    only that; no list is returned and no default takes the place of the
    field. *)
Theorem missing_field_raises_KeyError
    (server : Server) (credentials : string * string)
    (studies_url series_url instances_url : string)
    (ignore_str : option string)
    (all_studies : json) (before : list string) (study : string)
    (after : list string) (st : Lists) (resource field : string) :
  server studies_url credentials = Ok all_studies ->
  py_iter all_studies = Ok (before ++ study :: after)%list ->
  for_each (study_body server credentials studies_url series_url instances_url
                       ignore_str) before ([], [], []) = Ok st ->
  missing_field server credentials studies_url series_url instances_url
                ignore_str st study resource field ->
  extract_annotated_studies server credentials studies_url series_url
                            instances_url ignore_str
  = Raise (KeyError field) /\
  exn_args (KeyError field) = [field].
Proof.
  intros Hall Hiter Hbefore Hmissing. split; [|reflexivity].
  unfold extract_annotated_studies. rewrite Hall. cbn [bind].
  rewrite Hiter. cbn [bind].
  apply (for_each_raise_at _ _ _ _ _ _ _ _ _ Hbefore).
  apply (missing_field_study_body _ _ _ _ _ _ _ _ _ _ Hmissing).
Qed.

Lemma missing_field_raises_KeyError_witness :
  demo_walk uidless_server None = Raise (KeyError "SOPInstanceUID") /\
  exn_args (KeyError "SOPInstanceUID") = ["SOPInstanceUID"].
Proof.
  apply (missing_field_raises_KeyError uidless_server demo_credentials
           demo_studies_url demo_series_url demo_instances_url None
           (JArr ["S1"]) [] "S1" [] ([], [], []) "i2" "SOPInstanceUID").
  - reflexivity.
  - reflexivity.
  - reflexivity.
  - apply (missing_sop_instance_uid uidless_server demo_credentials
             demo_studies_url demo_series_url demo_instances_url None
             ([], [], []) "S1"
             i1_i2_annotated "patient 7" "DOE JOHN" (JArr ["R1"])
             [] "R1" [] ([], [], [])
             ["i1"] "i2" ["i3"]
             ([JStr "u1"], ["patient_7"], ["DOE_JOHN"])
             (instance_document [("InstanceNumber", JStr "2")])
             [("InstanceNumber", JStr "2")]);
      try reflexivity.
    apply one_study_annotated.
Defined.

(** ** The keys of the annotation attachment *)

(** C3, as stated, fails for a suffix of more than one digit: the kept key
    "i1:10" is cut to "i1:", so the instance "i1" is not matched, and the
    walk of a server annotated that way returns nothing. *)
Lemma two_digit_suffix_not_stripped :
  kept_key [("i1:10", JBool true)] "i1:10" /\
  instance_uuids_of [("i1:10", JBool true)] = ["i1:"] /\
  py_list_in "i1" (instance_uuids_of [("i1:10", JBool true)]) = false /\
  demo_walk two_digit_server None = Ok ([], [], []).
Proof.
  split; [split; [left; reflexivity | reflexivity]|].
  repeat split; reflexivity.
Qed.

Lemma substring_prefix_append (x y : string) :
  String.substring 0 (String.length x) (x ++ y) = x.
Proof.
  induction x as [|c x IH]; simpl.
  - destruct y; reflexivity.
  - rewrite IH. reflexivity.
Qed.

Lemma length_append (x y : string) :
  String.length (x ++ y) = String.length x + String.length y.
Proof. induction x as [|c x IH]; simpl; [reflexivity | rewrite IH; reflexivity]. Qed.

Lemma py_str_slice_to_minus2 (x : string) (c1 c2 : ascii) :
  py_str_slice_to (x ++ String c1 (String c2 "")) (-2) = x.
Proof.
  unfold py_str_slice_to, slice_bound. rewrite length_append. simpl String.length.
  replace (Nat.min _ _) with (String.length x).
  - apply substring_prefix_append.
  - cbn [Z.ltb Z.compare]. lia.
Qed.

Lemma py_list_in_In x l : py_list_in x l = true <-> In x l.
Proof.
  unfold py_list_in. rewrite existsb_exists. split.
  - intros (y & Hy & Heq). apply String.eqb_eq in Heq. subst. exact Hy.
  - intros H. exists x. split; [exact H | apply String.eqb_refl].
Qed.

Lemma instance_uuids_of_In annotation x :
  In x (instance_uuids_of annotation) <->
  exists key, kept_key annotation key /\ py_str_slice_to key (-2) = x.
Proof.
  unfold instance_uuids_of, kept_key. rewrite in_map_iff. split.
  - intros (key & Hcut & Hkey). apply filter_In in Hkey. eauto.
  - intros (key & Hkey & Hcut). exists key. split; [exact Hcut|].
    apply filter_In. exact Hkey.
Qed.

(** C3, amended.  The instance IDs used for matching are the kept keys of the
    annotation attachment, each with its last two characters removed: an
    instance is matched exactly when its raw ID is a kept key without its
    last two characters.  So a kept key "x:N" matches the instance whose
    raw ID is "x" when N is a single character (one digit). *)
Theorem annotation_keys_cut_by_two (annotation : list (string * json)) :
  (forall x c1 c2, py_str_slice_to (x ++ String c1 (String c2 "")) (-2) = x) /\
  (forall x,
     py_list_in x (instance_uuids_of annotation) = true <->
     exists key, kept_key annotation key /\ py_str_slice_to key (-2) = x) /\
  (forall x digit,
     kept_key annotation (x ++ ":" ++ String digit "") ->
     py_list_in x (instance_uuids_of annotation) = true).
Proof.
  split; [|split].
  - apply py_str_slice_to_minus2.
  - intros x. rewrite py_list_in_In. apply instance_uuids_of_In.
  - intros x digit Hkey. apply py_list_in_In, instance_uuids_of_In.
    exists (x ++ ":" ++ String digit ""). split; [exact Hkey|].
    apply (py_str_slice_to_minus2 x ":" digit).
Qed.

Lemma annotation_keys_cut_by_two_witness :
  py_list_in "i1" (instance_uuids_of i1_i2_annotated) = true /\
  exists key, kept_key i1_i2_annotated key /\ py_str_slice_to key (-2) = "i2".
Proof.
  destruct (annotation_keys_cut_by_two i1_i2_annotated) as (_ & Hiff & Hdigit).
  split.
  - apply (Hdigit "i1" "0"%char). split; [left; reflexivity | reflexivity].
  - apply (proj1 (Hiff "i2")). reflexivity.
Defined.

(** ** Repeated leaf identifiers *)






(** ** The split into batches *)

Lemma ceil_div_bounds n c :
  (0 < c)%Z ->
  ((ceil_div n c - 1) * c < n <= ceil_div n c * c)%Z.
Proof.
  intros Hc. unfold ceil_div.
  pose proof (Z.div_mod (- n) c ltac:(lia)) as Hdm.
  pose proof (Z.mod_pos_bound (- n) c Hc) as Hr.
  nia.
Qed.

(** For a positive step, the range from [c] up to [m * c] is [c; 2c; ...],
    and it has [m - 1] elements (none when [m <= 1]). *)
Lemma py_range_multiples c m :
  (0 < c)%Z ->
  py_range c (m * c) c
  = Ok (map (fun k => (c + Z.of_nat k * c)%Z) (seq 0 (Z.to_nat (m - 1)))).
Proof.
  intros Hc. unfold py_range.
  destruct (Z.eqb_spec c 0) as [|_]; [lia|].
  destruct (Z.ltb_spec 0 c) as [_|]; [|lia].
  destruct (Z.ltb_spec c (m * c)) as [Hlt|Hge].
  - replace ((m * c - c - 1) / c + 1)%Z with (m - 1)%Z; [reflexivity|].
    assert (Hq : ((m * c - c - 1) / c = m - 2)%Z).
    { symmetry. apply (Z.div_unique_pos _ _ _ (c - 1)%Z); lia. }
    lia.
  - replace (Z.to_nat (m - 1)) with (Z.to_nat 0); [reflexivity|].
    assert (m <= 1)%Z by nia. lia.
Qed.

Section SplitFacts.

Variable Row : Type.
Implicit Types (rows : list Row) (p q n : nat) (pts : list nat).

Lemma last_cons_default q rest p : last (q :: rest) p = last rest q.
Proof.
  revert q p. induction rest as [|x r IH]; intros q p; [reflexivity|].
  change (last (q :: x :: r) p) with (last (x :: r) p).
  rewrite (IH x p), (IH x q). reflexivity.
Qed.

Lemma ascending_last p pts n :
  ascending p pts n -> p <= last pts p /\ last pts p <= n.
Proof.
  revert p. induction pts as [|q rest IH]; intros p.
  - simpl. lia.
  - intros [Hpq Hrest]. specialize (IH q Hrest).
    rewrite last_cons_default. lia.
Qed.

Lemma py_slice_nat rows p q :
  p <= q -> q <= length rows ->
  py_slice rows (Z.of_nat p) (Z.of_nat q) = firstn (q - p) (skipn p rows).
Proof.
  intros Hpq Hq. unfold py_slice, slice_bound.
  destruct (Z.ltb_spec (Z.of_nat p) 0); [lia|].
  destruct (Z.ltb_spec (Z.of_nat q) 0); [lia|].
  rewrite !Nat2Z.id.
  rewrite (Nat.min_l p) by lia. rewrite (Nat.min_l q) by lia. reflexivity.
Qed.

Lemma firstn_then_firstn_skipn (l : list Row) a b :
  (firstn a l ++ firstn b (skipn a l))%list = firstn (a + b) l.
Proof.
  revert l. induction a as [|a IH]; intros l; simpl; [reflexivity|].
  destruct l as [|x l]; simpl.
  - rewrite firstn_nil. reflexivity.
  - rewrite IH. reflexivity.
Qed.

Lemma skipn_skipn_add (l : list Row) a b :
  skipn b (skipn a l) = skipn (a + b) l.
Proof.
  revert l. induction a as [|a IH]; intros l; simpl; [reflexivity|].
  destruct l as [|x l]; simpl; [apply skipn_nil | apply IH].
Qed.

Lemma sub_arys_step rows a b rest :
  sub_arys rows (a :: b :: rest) = py_slice rows a b :: sub_arys rows (b :: rest).
Proof. reflexivity. Qed.

Lemma concat_sub_arys rows p pts :
  ascending p pts (length rows) ->
  concat (sub_arys rows (Z.of_nat p :: map Z.of_nat pts))
  = firstn (last pts p - p) (skipn p rows).
Proof.
  revert p. induction pts as [|q rest IH]; intros p Hasc.
  - simpl. rewrite Nat.sub_diag. reflexivity.
  - destruct Hasc as [Hpq Hrest].
    pose proof (ascending_last _ _ _ Hrest) as [Hq1 Hq2].
    cbn [map]. rewrite sub_arys_step. cbn [concat].
    rewrite (IH q Hrest), py_slice_nat by lia.
    rewrite (last_cons_default q rest p).
    replace q with (p + (q - p)) at 4 by lia.
    rewrite <- skipn_skipn_add, firstn_then_firstn_skipn.
    f_equal. lia.
Qed.

Lemma length_sub_arys rows p pts :
  ascending p pts (length rows) ->
  map (@length Row) (sub_arys rows (Z.of_nat p :: map Z.of_nat pts))
  = gaps p pts.
Proof.
  revert p. induction pts as [|q rest IH]; intros p Hasc; [reflexivity|].
  destruct Hasc as [Hpq Hrest].
  pose proof (ascending_last _ _ _ Hrest) as [Hq1 Hq2].
  cbn [map gaps]. rewrite sub_arys_step. cbn [map].
  rewrite (IH q Hrest), py_slice_nat by lia.
  rewrite length_firstn, length_skipn. f_equal. lia.
Qed.

Lemma cut_points_ascending C o j n :
  (o + j) * C <= n -> ascending (o * C) (cut_points C o j n) n.
Proof.
  unfold cut_points. revert o. induction j as [|j IH]; intros o H; simpl.
  - lia.
  - split; [lia|]. apply (IH (S o)). lia.
Qed.

Lemma cut_points_gaps C o j n :
  gaps (o * C) (cut_points C o j n) = (repeat C j ++ [n - (o + j) * C])%list.
Proof.
  unfold cut_points. revert o. induction j as [|j IH]; intros o.
  - simpl. rewrite Nat.add_0_r. reflexivity.
  - cbn [seq map app gaps repeat].
    change (C + o * C) with (S o * C). rewrite (IH (S o)).
    replace (o + S j) with (S o + j) by lia.
    f_equal. simpl. lia.
Qed.

Lemma cut_points_last C o j n d : last (cut_points C o j n) d = n.
Proof. unfold cut_points. apply last_last. Qed.

End SplitFacts.

(** C8.  For a table [rows] of n rows and a chunk size c > 0, the split done
    by [split_intervals] followed by the split at those intervals returns
    consecutive batches: chained in order they give back the table, so every
    row is in exactly one batch; every batch but the last has exactly c rows,
    and the last has at most c rows. *)
Theorem split_partitions_rows (Row : Type) (rows : list Row) (c : Z) :
  (0 < c)%Z ->
  exists full last_batch,
    split_dfs rows c = Ok (full ++ [last_batch])%list /\
    concat (full ++ [last_batch]) = rows /\
    Forall (fun batch => Z.of_nat (length batch) = c) full /\
    Forall (fun batch => (Z.of_nat (length batch) <= c)%Z) (full ++ [last_batch]).
Proof.
  intros Hc.
  set (n := length rows).
  set (C := Z.to_nat c).
  set (m := ceil_div (Z.of_nat n) c).
  set (j := Z.to_nat (m - 1)).
  assert (HC : Z.of_nat C = c) by (apply Z2Nat.id; lia).
  pose proof (ceil_div_bounds (Z.of_nat n) c Hc) as [Hlow Hhigh].
  fold m in Hlow, Hhigh.
  assert (Hm : (0 <= m)%Z) by nia.
  assert (Hj_low : j * C <= n).
  { apply Nat2Z.inj_le. rewrite Nat2Z.inj_mul, HC. unfold j.
    destruct (Z.le_gt_cases m 1).
    - replace (Z.to_nat (m - 1)) with 0 by lia. lia.
    - rewrite Z2Nat.id by lia. lia. }
  assert (Hj_high : n - j * C <= C).
  { assert (Z.of_nat n <= Z.of_nat (j * C + C))%Z; [|lia].
    rewrite Nat2Z.inj_add, Nat2Z.inj_mul, HC. unfold j.
    destruct (Z.le_gt_cases m 0).
    + replace (Z.to_nat (m - 1)) with 0 by lia. nia.
    + rewrite Z2Nat.id by lia. lia. }
  assert (Hsplit : split_dfs rows c
            = Ok (sub_arys rows (Z.of_nat 0 :: map Z.of_nat (cut_points C 0 j n)))).
  { unfold split_dfs, split_intervals.
    destruct (Z.eqb_spec c 0) as [|_]; [lia|].
    fold n. fold m. rewrite py_range_multiples by exact Hc. fold j.
    cbn [bind]. unfold np_split, cut_points. fold n.
    rewrite map_app, map_map. cbn [map Z.of_nat].
    do 4 f_equal. apply map_ext. intros k.
    rewrite Nat2Z.inj_add, Nat2Z.inj_mul, HC. reflexivity. }
  pose proof (cut_points_ascending C 0 j n ltac:(simpl; lia)) as Hasc.
  pose proof (length_sub_arys Row rows 0 (cut_points C 0 j n) Hasc) as Hlen.
  pose proof (concat_sub_arys Row rows 0 (cut_points C 0 j n) Hasc) as Hcat.
  pose proof (cut_points_gaps C 0 j n) as Hgaps.
  change (0 * C) with 0 in Hgaps. rewrite Hgaps in Hlen. clear Hgaps.
  rewrite cut_points_last, Nat.sub_0_r in Hcat. cbn [skipn] in Hcat.
  unfold n in Hcat at 2. rewrite firstn_all in Hcat.
  apply map_eq_app in Hlen. destruct Hlen as (full & tl & Hbatches & Hfull & Htl).
  destruct tl as [|last_batch [|? ?]]; try discriminate Htl.
  injection Htl as Hlast.
  exists full, last_batch. rewrite Hsplit, Hbatches in *.
  assert (Hexact : Forall (fun batch => Z.of_nat (length batch) = c) full).
  { apply Forall_forall. intros batch Hin.
    assert (Hb : In (length batch) (repeat C j))
      by (rewrite <- Hfull; apply in_map; exact Hin).
    apply repeat_spec in Hb. rewrite Hb. exact HC. }
  repeat split.
  - exact Hcat.
  - exact Hexact.
  - apply Forall_app. split.
    + eapply Forall_impl; [|exact Hexact]. intros batch Hb. simpl in Hb. lia.
    + constructor; [|constructor]. rewrite Hlast. simpl in *. lia.
Qed.

Lemma split_partitions_rows_witness :
  exists full last_batch,
    split_dfs ["a"; "b"; "c"; "d"; "e"; "f"; "g"] 3 = Ok (full ++ [last_batch])%list /\
    concat (full ++ [last_batch]) = ["a"; "b"; "c"; "d"; "e"; "f"; "g"] /\
    Forall (fun batch => Z.of_nat (length batch) = 3%Z) full /\
    Forall (fun batch => (Z.of_nat (length batch) <= 3)%Z) (full ++ [last_batch]).
Proof.
  apply (split_partitions_rows string ["a"; "b"; "c"; "d"; "e"; "f"; "g"] 3).
  reflexivity.
Defined.

Example split_7_by_3 :
  split_dfs [1; 2; 3; 4; 5; 6; 7] 3 = Ok [[1; 2; 3]; [4; 5; 6]; [7]].
Proof. reflexivity. Qed.

Example split_6_by_3 :
  split_dfs [1; 2; 3; 4; 5; 6] 3 = Ok [[1; 2; 3]; [4; 5; 6]].
Proof. reflexivity. Qed.

Example split_empty_by_3 : split_dfs (@nil nat) 3 = Ok [[]].
Proof. reflexivity. Qed.

Example split_by_0 : split_dfs [1; 2; 3] 0 = Raise ZeroDivisionError.
Proof. reflexivity. Qed.

(** * Further properties of the scripts *)

(** ** More on the split into batches *)

(** For c > 0 the split succeeds; its batches chain back to the table, and
    their lengths are j times c followed by the rest, where j is the number
    of intervals. *)
Lemma split_dfs_shape (Row : Type) (rows : list Row) (c : Z) :
  (0 < c)%Z ->
  let n := length rows in
  let C := Z.to_nat c in
  let j := Z.to_nat (ceil_div (Z.of_nat n) c - 1) in
  exists batches,
    split_dfs rows c = Ok batches /\
    concat batches = rows /\
    map (@length Row) batches = (repeat C j ++ [n - j * C])%list /\
    j * C <= n /\ n <= j * C + C /\ (0 < n -> j * C < n).
Proof.
  intros Hc n C j.
  set (m := ceil_div (Z.of_nat n) c).
  assert (HC : Z.of_nat C = c) by (apply Z2Nat.id; lia).
  pose proof (ceil_div_bounds (Z.of_nat n) c Hc) as [Hlow Hhigh].
  fold m in Hlow, Hhigh.
  assert (Hm : (0 <= m)%Z) by nia.
  assert (Hj : (Z.of_nat j = Z.max 0 (m - 1))%Z) by (unfold j; fold m; lia).
  assert (Hjc : Z.of_nat (j * C) = (Z.of_nat j * c)%Z)
    by (rewrite Nat2Z.inj_mul, HC; reflexivity).
  assert (Hj_low : j * C <= n) by (apply Nat2Z.inj_le; rewrite Hjc; nia).
  assert (Hj_high : n <= j * C + C).
  { apply Nat2Z.inj_le. rewrite Nat2Z.inj_add, Hjc, HC. nia. }
  assert (Hj_pos : 0 < n -> j * C < n).
  { intros Hn. apply Nat2Z.inj_lt. rewrite Hjc. nia. }
  assert (Hsplit : split_dfs rows c
            = Ok (sub_arys rows (Z.of_nat 0 :: map Z.of_nat (cut_points C 0 j n)))).
  { unfold split_dfs, split_intervals.
    destruct (Z.eqb_spec c 0) as [|_]; [lia|].
    fold n. fold m. rewrite py_range_multiples by exact Hc. fold j.
    cbn [bind]. unfold np_split, cut_points. fold n.
    rewrite map_app, map_map. cbn [map Z.of_nat].
    do 4 f_equal. apply map_ext. intros k.
    rewrite Nat2Z.inj_add, Nat2Z.inj_mul, HC. reflexivity. }
  pose proof (cut_points_ascending C 0 j n ltac:(simpl; lia)) as Hasc.
  pose proof (length_sub_arys Row rows 0 (cut_points C 0 j n) Hasc) as Hlen.
  pose proof (concat_sub_arys Row rows 0 (cut_points C 0 j n) Hasc) as Hcat.
  pose proof (cut_points_gaps C 0 j n) as Hgaps.
  change (0 * C) with 0 in Hgaps. rewrite Hgaps in Hlen. clear Hgaps.
  rewrite cut_points_last, Nat.sub_0_r in Hcat. cbn [skipn] in Hcat.
  unfold n in Hcat at 2. rewrite firstn_all in Hcat.
  eexists. split; [exact Hsplit|].
  split; [exact Hcat|]. split; [exact Hlen|].
  split; [exact Hj_low|]. split; [exact Hj_high | exact Hj_pos].
Qed.

(** X1.  A chunk size of zero makes the split raise [ZeroDivisionError]
    whatever the table, and a negative chunk size does not split at all: the
    whole table comes back as a single batch. *)
Theorem split_nonpositive_chunk (Row : Type) (rows : list Row) (c : Z) :
  (c <= 0)%Z ->
  split_dfs rows c = if (c =? 0)%Z then Raise ZeroDivisionError else Ok [rows].
Proof.
  intros Hc. unfold split_dfs, split_intervals.
  destruct (Z.eqb_spec c 0) as [->|Hne]; [reflexivity|].
  unfold py_range.
  destruct (Z.eqb_spec c 0) as [|_]; [contradiction|].
  destruct (Z.ltb_spec 0 c) as [|_]; [lia|].
  assert (Hstop : (c <= ceil_div (Z.of_nat (length rows)) c * c)%Z).
  { unfold ceil_div.
    pose proof (Z.div_mod (- Z.of_nat (length rows)) c Hne) as Hdm.
    pose proof (Z.mod_neg_bound (- Z.of_nat (length rows)) c ltac:(lia)) as Hr.
    nia. }
  destruct (Z.ltb_spec (ceil_div (Z.of_nat (length rows)) c * c) c) as [|_];
    [lia|].
  cbn [Z.to_nat seq map bind]. unfold np_split. cbn [app sub_arys].
  unfold py_slice, slice_bound. cbn [Z.ltb Z.compare Z.to_nat].
  destruct (Z.ltb_spec (Z.of_nat (length rows)) 0); [lia|].
  rewrite Nat2Z.id, Nat.min_id, Nat.sub_0_r. cbn [Nat.min skipn].
  rewrite firstn_all. reflexivity.
Qed.

Lemma split_nonpositive_chunk_witness :
  split_dfs ["a"; "b"; "c"; "d"; "e"] (-2) = Ok [["a"; "b"; "c"; "d"; "e"]] /\
  split_dfs ["a"; "b"; "c"; "d"; "e"] 0 = Raise ZeroDivisionError.
Proof.
  split.
  - apply (split_nonpositive_chunk string ["a"; "b"; "c"; "d"; "e"] (-2)).
    discriminate.
  - apply (split_nonpositive_chunk string ["a"; "b"; "c"; "d"; "e"] 0).
    discriminate.
Defined.

Lemma Forall_of_map_length (Row : Type) (P : nat -> Prop)
    (batches : list (list Row)) :
  Forall P (map (@length Row) batches) ->
  Forall (fun batch => P (length batch)) batches.
Proof.
  induction batches as [|b batches IH]; simpl; intros H; [constructor|].
  inversion H; subst. constructor; [assumption | apply IH; assumption].
Qed.

(** X2.  For a chunk size c > 0 the split gives ceil(n / c) batches, and one
    (empty) batch for an empty table; no batch of a non-empty table is empty;
    and when c divides the number of rows of a non-empty table every batch,
    the last included, has exactly c rows. *)
Theorem split_batch_count (Row : Type) (rows : list Row) (c : Z) :
  (0 < c)%Z ->
  exists batches,
    split_dfs rows c = Ok batches /\
    length batches
    = Nat.max 1 (Z.to_nat (ceil_div (Z.of_nat (length rows)) c)) /\
    (rows <> [] -> Forall (fun batch => batch <> []) batches) /\
    (rows <> [] -> (Z.of_nat (length rows) mod c = 0)%Z ->
     Forall (fun batch => Z.of_nat (length batch) = c) batches).
Proof.
  intros Hc.
  destruct (split_dfs_shape Row rows c Hc)
    as (batches & Hsplit & _ & Hlen & Hlow & Hhigh & Hpos).
  set (n := length rows) in *.
  set (C := Z.to_nat c) in *.
  set (j := Z.to_nat (ceil_div (Z.of_nat n) c - 1)) in *.
  assert (HC : Z.of_nat C = c) by (apply Z2Nat.id; lia).
  pose proof (ceil_div_bounds (Z.of_nat n) c Hc) as [Hcl Hch].
  exists batches. split; [exact Hsplit|]. split; [|split].
  - rewrite <- (length_map (@length Row)), Hlen, length_app, repeat_length.
    assert (0 <= ceil_div (Z.of_nat n) c)%Z by nia.
    cbn [length]. unfold j. lia.
  - intros Hrows.
    assert (Hn : 0 < n) by (unfold n; destruct rows; [contradiction | simpl; lia]).
    specialize (Hpos Hn).
    assert (H : Forall (fun k => 0 < k) (map (@length Row) batches)).
    { rewrite Hlen. apply Forall_app. split.
      - apply Forall_forall. intros k Hk. apply repeat_spec in Hk. lia.
      - constructor; [lia | constructor]. }
    apply Forall_of_map_length in H.
    eapply Forall_impl; [|exact H]. intros b Hb ->. simpl in Hb. lia.
  - intros Hrows Hmod.
    assert (Hn : 0 < n) by (unfold n; destruct rows; [contradiction | simpl; lia]).
    specialize (Hpos Hn).
    apply Z.mod_divide in Hmod; [|lia]. destruct Hmod as [k Hk].
    assert (Hlast : n - j * C = C).
    { assert (H1 : (Z.of_nat j * c < k * c)%Z).
      { rewrite <- Hk, <- HC, <- Nat2Z.inj_mul. lia. }
      assert (H2 : (k * c <= Z.of_nat j * c + c)%Z).
      { rewrite <- Hk, <- HC, <- Nat2Z.inj_mul, <- Nat2Z.inj_add. lia. }
      assert (H3 : (k = Z.of_nat j + 1)%Z) by nia.
      assert (H4 : Z.of_nat n = Z.of_nat (j * C + C)).
      { rewrite Nat2Z.inj_add, Nat2Z.inj_mul, HC, Hk, H3. ring. }
      lia. }
    assert (H : Forall (fun k => Z.of_nat k = c) (map (@length Row) batches)).
    { rewrite Hlen, Hlast. apply Forall_app. split.
      - apply Forall_forall. intros x Hx. apply repeat_spec in Hx. lia.
      - constructor; [lia | constructor]. }
    apply Forall_of_map_length in H. exact H.
Qed.

Lemma split_batch_count_witness :
  exists batches,
    split_dfs ["a"; "b"; "c"; "d"; "e"; "f"] 3 = Ok batches /\
    length batches = 2 /\
    Forall (fun batch => batch <> []) batches /\
    Forall (fun batch => Z.of_nat (length batch) = 3%Z) batches.
Proof.
  destruct (split_batch_count string ["a"; "b"; "c"; "d"; "e"; "f"] 3 eq_refl)
    as (batches & Hsplit & Hcount & Hnonempty & Hfull).
  exists batches. split; [exact Hsplit|]. split; [exact Hcount|].
  split; [apply Hnonempty; discriminate|].
  apply Hfull; [discriminate | reflexivity].
Defined.

(** ** The batch files of [orthanc_lists_to_annotate.py] *)

Lemma append_inv_head (a x y : string) : a ++ x = a ++ y -> x = y.
Proof.
  induction a as [|c a IH]; simpl; intros H; [exact H|].
  injection H as H. apply IH. exact H.
Qed.

Lemma append_inv_tail (x y s : string) : x ++ s = y ++ s -> x = y.
Proof.
  revert y. induction x as [|c x IH]; intros y H.
  - destruct y as [|d y]; [reflexivity|].
    apply (f_equal String.length) in H. rewrite !length_append in H.
    simpl in H. lia.
  - destruct y as [|d y].
    + apply (f_equal String.length) in H. rewrite !length_append in H.
      simpl in H. lia.
    + simpl in H. injection H as -> H. f_equal. apply IH. exact H.
Qed.

Lemma py_str_nat_inj (m n : nat) : py_str_nat m = py_str_nat n -> m = n.
Proof.
  unfold py_str_nat. intros H.
  apply (f_equal DecimalString.NilEmpty.uint_of_string) in H.
  rewrite !DecimalString.NilEmpty.usu in H. injection H as H.
  apply (f_equal Nat.of_uint) in H.
  rewrite !DecimalNat.Unsigned.of_to in H. exact H.
Qed.

Lemma batch_filename_inj match_name i k :
  ListsToAnnotate.batch_filename match_name i
  = ListsToAnnotate.batch_filename match_name k ->
  i = k.
Proof.
  unfold ListsToAnnotate.batch_filename. intros H.
  apply append_inv_head in H. apply append_inv_head in H.
  apply append_inv_head in H. apply append_inv_tail in H.
  apply py_str_nat_inj in H. lia.
Qed.

Lemma batch_files_names match_name i split_dfs name :
  In name (map fst (ListsToAnnotate.batch_files match_name i split_dfs)) ->
  exists k, i <= k /\ name = ListsToAnnotate.batch_filename match_name k.
Proof.
  revert i. induction split_dfs as [|df rest IH]; intros i; simpl; [intros []|].
  intros [<-|H].
  - exists i. split; [lia | reflexivity].
  - destruct (IH (S i) H) as (k & Hk & ->). exists k. split; [lia | reflexivity].
Qed.

Lemma batch_files_NoDup match_name i split_dfs :
  NoDup (map fst (ListsToAnnotate.batch_files match_name i split_dfs)).
Proof.
  revert i. induction split_dfs as [|df rest IH]; intros i; simpl; constructor.
  - intros H. apply batch_files_names in H. destruct H as (k & Hk & Heq).
    apply batch_filename_inj in Heq. lia.
  - apply IH.
Qed.

Lemma batch_files_contents match_name i split_dfs :
  map snd (ListsToAnnotate.batch_files match_name i split_dfs) = split_dfs.
Proof.
  revert i. induction split_dfs as [|df rest IH]; intros i; simpl;
    [reflexivity|]. rewrite IH. reflexivity.
Qed.

(** X3.  Whatever [main] of [orthanc_lists_to_annotate.py] writes, it writes
    every pulled row exactly once: given the table the pull returns and a
    shuffle that permutes its rows, with output type "full", or with a chunk
    size c > 0, the files written have pairwise distinct names (no batch
    overwrites another), their contents together are a permutation of the
    pulled rows, and with output type "full" there is the one file
    [filename_full], holding the rows in the order of the pull. *)
Theorem main_writes_every_row
    (server : Server) (sample : list UrlRow -> list UrlRow)
    (orthanc_server_url : string) (orthanc_credentials : string * string)
    (output_type by_ : string) (chunk_size : Z)
    (match_name filename_full : string) (list_df : list UrlRow) :
  ListsToAnnotate.pull_urls_from_orthanc server orthanc_server_url
    orthanc_credentials by_ match_name = Ok list_df ->
  Permutation (sample list_df) list_df ->
  output_type = "full" \/ (0 < chunk_size)%Z ->
  exists files,
    ListsToAnnotate.main server sample orthanc_server_url orthanc_credentials
      output_type by_ chunk_size match_name filename_full = Ok files /\
    NoDup (map fst files) /\
    Permutation (concat (map snd files)) list_df /\
    (output_type = "full" -> files = [(filename_full, list_df)]) /\
    (output_type <> "full" ->
     Forall (fun file => (Z.of_nat (length (snd file)) <= chunk_size)%Z) files).
Proof.
  intros Hpull Hsample Hmode. unfold ListsToAnnotate.main. rewrite Hpull.
  cbn [bind].
  destruct (String.eqb_spec output_type "full") as [Hfull|Hsplit].
  - exists [(filename_full, list_df)]. split; [reflexivity|]. split; [|split; [|split]].
    + constructor; [intros [] | constructor].
    + simpl. rewrite app_nil_r. apply Permutation_refl.
    + reflexivity.
    + intros H. contradiction.
  - destruct Hmode as [Hfull|Hc]; [contradiction|].
    destruct (split_dfs_shape UrlRow (sample list_df) chunk_size Hc)
      as (batches & Hbatches & Hcat & Hlen & _ & Hhigh & _).
    unfold split_dfs in Hbatches.
    destruct (split_intervals (sample list_df) chunk_size) as [interval|e];
      [|discriminate Hbatches].
    cbn [bind] in *. injection Hbatches as Hbatches.
    eexists. split; [reflexivity|]. rewrite Hbatches.
    split; [apply batch_files_NoDup|]. split; [|split].
    + rewrite batch_files_contents, Hcat. exact Hsample.
    + intros H. contradiction.
    + intros _. apply Forall_forall. intros [name df] Hin.
      assert (Hdf : In df batches).
      { rewrite <- (batch_files_contents match_name 0 batches).
        apply (in_map snd _ _ Hin). }
      assert (Hl : In (length df) (map (@length UrlRow) batches))
        by (apply in_map; exact Hdf).
      rewrite Hlen in Hl. apply in_app_or in Hl. simpl.
      destruct Hl as [Hl|[Hl|[]]].
      * apply repeat_spec in Hl. lia.
      * lia.
Qed.

Lemma main_writes_every_row_witness :
  exists files,
    ListsToAnnotate.main catalogue_server (@rev UrlRow) catalogue_url
      demo_credentials "split" "study" 2 "anon_ib" "all.xlsx" = Ok files /\
    NoDup (map fst files) /\
    Permutation (concat (map snd files)) catalogue_anon_rows /\
    ("split" = "full" -> files = [("all.xlsx", catalogue_anon_rows)]) /\
    ("split" <> "full" ->
     Forall (fun file => (Z.of_nat (length (snd file)) <= 2)%Z) files).
Proof.
  apply (main_writes_every_row catalogue_server (@rev UrlRow) catalogue_url
           demo_credentials "split" "study" 2 "anon_ib" "all.xlsx").
  - reflexivity.
  - apply Permutation_sym, Permutation_rev.
  - right. reflexivity.
Defined.

(** ** The pull of [orthanc_lists_to_annotate.py] *)


Section PullFacts.

Variable server : Server.
Variable server_url : string.
Variable credentials : string * string.
Variable item_type : string.
Variable name_restriction : string.



End PullFacts.



Lemma for_each_filter_map (X R : Type) (body : list R -> X -> result (list R))
    (keep : X -> bool) (row : X -> R) xs :
  (forall st x, In x xs ->
     body st x = Ok (if keep x then (st ++ [row x])%list else st)) ->
  forall st,
    for_each body xs st = Ok (st ++ map row (filter keep xs))%list.
Proof.
  induction xs as [|x xs IH]; intros Hbody st; simpl.
  - rewrite app_nil_r. reflexivity.
  - rewrite (Hbody st x (or_introl eq_refl)). cbn [bind].
    rewrite IH by (intros s y Hy; apply Hbody; right; exact Hy).
    destruct (keep x); simpl; [rewrite <- app_assoc|]; reflexivity.
Qed.


Lemma filter_all (X : Type) (keep : X -> bool) (xs : list X) :
  (forall x, keep x = true) -> filter keep xs = xs.
Proof.
  intros H. induction xs as [|x xs IH]; simpl; [reflexivity|].
  rewrite H, IH. reflexivity.
Qed.




(** X6.  An item type that is neither "study" nor "series" is treated as
    series for the listing, but no series document is fetched: the pull
    returns the empty table when the listing of the series is empty and
    raises [TypeError] at its first item otherwise. *)
Theorem pull_unknown_item_type
    (server : Server) (server_url : string) (credentials : string * string)
    (item_type name_restriction : string) (all_items : json)
    (items : list string) :
  item_type <> "study" ->
  item_type <> "series" ->
  server (server_url ++ "/series/") credentials = Ok all_items ->
  py_iter all_items = Ok items ->
  ListsToAnnotate.pull_urls_from_orthanc server server_url credentials
    item_type name_restriction
  = match items with
    | [] => Ok []
    | _ :: _ => Raise TypeError
    end.
Proof.
  intros Hstudy Hseries Hlisting Hiter.
  unfold ListsToAnnotate.pull_urls_from_orthanc.
  apply String.eqb_neq in Hstudy. apply String.eqb_neq in Hseries.
  rewrite Hstudy, Hlisting. cbn [bind]. rewrite Hiter. cbn [bind].
  destruct items as [|item rest]; [reflexivity|].
  cbn [for_each]. unfold ListsToAnnotate.item_body at 1.
  rewrite Hstudy, Hseries. reflexivity.
Qed.

Lemma pull_unknown_item_type_witness :
  ListsToAnnotate.pull_urls_from_orthanc catalogue_server catalogue_url
    demo_credentials "patient" "" = Raise TypeError.
Proof.
  apply (pull_unknown_item_type catalogue_server catalogue_url demo_credentials
           "patient" "" (JArr ["R1"; "R2"; "R3"]) ["R1"; "R2"; "R3"]);
    try reflexivity; discriminate.
Defined.

(** ** The annotated studies of [orthanc_list_annotated_images.py] *)

Lemma append_assoc3 (a b c : string) : (a ++ b) ++ c = a ++ (b ++ c).
Proof. induction a as [|x a IH]; simpl; [reflexivity | rewrite IH; reflexivity]. Qed.

Section ImagesFacts.

Variable server : Server.
Variable credentials : string * string.
Variable studies_url : string.

Lemma keep_annotated_Ok studies_list study studies_list' :
  ListAnnotatedImages.keep_annotated server credentials studies_url
    studies_list study = Ok studies_list' ->
  studies_list'
  = (studies_list
     ++ filter (is_annotated server credentials studies_url) [study])%list /\
  exists attachments annotated,
    server (studies_url ++ study ++ "/attachments/") credentials = Ok attachments /\
    py_in "9999" attachments = Ok annotated.
Proof.
  unfold ListAnnotatedImages.keep_annotated, is_annotated. cbn [filter].
  destruct (server _ _) as [att|e]; cbn [bind]; [|discriminate].
  destruct (py_in "9999" att) as [annotated|e] eqn:Hin; cbn [bind];
    [|discriminate].
  intros [= <-]. split.
  - destruct annotated; [reflexivity | rewrite app_nil_r; reflexivity].
  - exists att, annotated. split; [reflexivity | exact Hin].
Qed.

Lemma keep_annotated_loop studies studies_list studies_list' :
  for_each (ListAnnotatedImages.keep_annotated server credentials
              studies_url) studies studies_list = Ok studies_list' ->
  studies_list'
  = (studies_list
     ++ filter (is_annotated server credentials studies_url) studies)%list.
Proof.
  revert studies_list.
  induction studies as [|study studies IH]; intros studies_list; simpl.
  - intros [= <-]. rewrite app_nil_r. reflexivity.
  - destruct (ListAnnotatedImages.keep_annotated _ _ _ _ _) as [l|e] eqn:Hk;
      cbn [bind]; [|discriminate].
    intros Hrest. apply IH in Hrest. apply keep_annotated_Ok in Hk.
    destruct Hk as [-> _]. rewrite Hrest. cbn [filter].
    destruct (is_annotated server credentials studies_url study);
      rewrite <- app_assoc; reflexivity.
Qed.

End ImagesFacts.



Section RowsFacts.

Variable server : Server.
Variable orthanc_server_url : string.
Variable credentials : string * string.
Variable studies_url : string.

Lemma images_study_body_Ok info_df study info_df' :
  ListAnnotatedImages.study_body server orthanc_server_url credentials
    studies_url info_df study = Ok info_df' ->
  exists row,
    info_df' = (info_df ++ [row])%list /\
    row_of_study server orthanc_server_url credentials studies_url study row.
Proof.
  unfold ListAnnotatedImages.study_body.
  destruct (server _ _) as [info|e] eqn:Hinfo; cbn [bind]; [|discriminate].
  destruct (py_getitem info "PatientMainDicomTags") as [tags|e] eqn:Htags;
    cbn [bind]; [|discriminate].
  destruct (py_getitem tags "PatientID") as [pid|e] eqn:Hpid; cbn [bind];
    [|discriminate].
  destruct (py_getitem tags "PatientName") as [pname|e] eqn:Hpname; cbn [bind];
    [|discriminate].
  intros [= <-]. eexists. split; [reflexivity|].
  apply py_getitem_Ok in Hpid. destruct Hpid as (fields & -> & Hpid).
  apply py_getitem_Ok in Hpname. destruct Hpname as (fields' & [= <-] & Hpname).
  split; [reflexivity|]. exists info, fields. repeat split; assumption.
Qed.

Lemma images_loop_rows studies info_df info_df' :
  for_each (ListAnnotatedImages.study_body server orthanc_server_url
              credentials studies_url) studies info_df = Ok info_df' ->
  exists rows,
    info_df' = (info_df ++ rows)%list /\
    Forall2 (row_of_study server orthanc_server_url credentials studies_url)
            studies rows.
Proof.
  revert info_df. induction studies as [|study studies IH]; intros info_df; simpl.
  - intros [= <-]. exists []. rewrite app_nil_r. split; [reflexivity|constructor].
  - destruct (ListAnnotatedImages.study_body _ _ _ _ _ _) as [df|e] eqn:Hb;
      cbn [bind]; [|discriminate].
    intros Hrest. apply images_study_body_Ok in Hb.
    destruct Hb as (row & -> & Hrow).
    apply IH in Hrest. destruct Hrest as (rows & -> & Hrows).
    exists (row :: rows). rewrite <- app_assoc. split; [reflexivity|].
    constructor; assumption.
Qed.

End RowsFacts.

(** X8.  The table [main] of [orthanc_list_annotated_images.py] writes has
    exactly one row per annotated study, in the order of the list of
    annotated studies: the row holds the PatientID and PatientName tags of
    the study's document and the viewer URL of the study. *)
Theorem annotated_images_one_row_per_study
    (server : Server) (orthanc_server_url : string)
    (orthanc_credentials : string * string) (rows : list UrlRow) :
  ListAnnotatedImages.main server orthanc_server_url orthanc_credentials
    = Ok rows ->
  exists studies_list,
    ListAnnotatedImages.annotated_studies server orthanc_server_url
      orthanc_credentials = Ok studies_list /\
    length rows = length studies_list /\
    Forall2 (row_of_study server orthanc_server_url orthanc_credentials
                          (orthanc_server_url ++ "studies/"))
            studies_list rows.
Proof.
  unfold ListAnnotatedImages.main.
  destruct (ListAnnotatedImages.annotated_studies _ _ _) as [studies_list|e];
    cbn [bind]; [|discriminate].
  unfold ListAnnotatedImages.pull_urls_from_orthanc. intros Hloop.
  apply images_loop_rows in Hloop. destruct Hloop as (rows' & Heq & Hrows).
  simpl in Heq. subst rows'.
  exists studies_list. split; [reflexivity|].
  split; [symmetry; apply (Forall2_length Hrows) | exact Hrows].
Qed.

Lemma annotated_images_one_row_per_study_witness :
  exists studies_list,
    ListAnnotatedImages.annotated_studies catalogue_server
      "http://orthanc:8042/" demo_credentials = Ok studies_list /\
    length
      [ (JStr "anon_ib_01", JStr "ANON_IB 01",
         "http://orthanc:8042/osimis-viewer/app/index.html?study=S1");
        (JStr "anon_ib_03", JStr "anon_ib 03",
         "http://orthanc:8042/osimis-viewer/app/index.html?study=S3") ]
    = length studies_list /\
    Forall2 (row_of_study catalogue_server "http://orthanc:8042/"
                          demo_credentials ("http://orthanc:8042/" ++ "studies/"))
            studies_list
            [ (JStr "anon_ib_01", JStr "ANON_IB 01",
               "http://orthanc:8042/osimis-viewer/app/index.html?study=S1");
              (JStr "anon_ib_03", JStr "anon_ib 03",
               "http://orthanc:8042/osimis-viewer/app/index.html?study=S3") ].
Proof.
  apply (annotated_images_one_row_per_study catalogue_server
           "http://orthanc:8042/" demo_credentials).
  reflexivity.
Defined.

(** ** The counts of [orthanc_files_info.py] *)

Lemma py_len_iter v n items :
  py_len v = Ok n -> py_iter v = Ok items -> length items = n.
Proof.
  destruct v; simpl; try discriminate; intros [= <-] [= <-].
  - induction s as [|c s IH]; simpl; [reflexivity | rewrite IH; reflexivity].
  - reflexivity.
  - apply length_map.
Qed.

Lemma count_body_loop server credentials studies_url studies count count' :
  for_each (FilesInfo.count_body server credentials studies_url) studies count
  = Ok count' ->
  forall studies_list,
    for_each (ListAnnotatedImages.keep_annotated server credentials studies_url)
             studies studies_list
    = Ok (studies_list
          ++ filter (is_annotated server credentials studies_url) studies)%list /\
    count'
    = count
      + length (filter (is_annotated server credentials studies_url) studies).
Proof.
  revert count. induction studies as [|study studies IH]; intros count; simpl.
  - intros [= <-] studies_list. rewrite app_nil_r. split; [reflexivity | lia].
  - unfold FilesInfo.count_body at 1, ListAnnotatedImages.keep_annotated at 1.
    destruct (server (studies_url ++ study ++ "/attachments/") credentials)
      as [att|e] eqn:Hatt; cbn [bind]; [|discriminate].
    destruct (py_in "9999" att) as [annotated|e] eqn:Hin; cbn [bind];
      [|discriminate].
    assert (Hann : is_annotated server credentials studies_url study = annotated)
      by (unfold is_annotated; rewrite Hatt, Hin; reflexivity).
    intros Hrest studies_list.
    destruct (IH _ Hrest (if annotated then (studies_list ++ [study])%list
                          else studies_list)) as [Hkeep ->].
    rewrite Hkeep, Hann. destruct annotated; simpl.
    + rewrite <- app_assoc. split; [reflexivity | lia].
    + split; [reflexivity | lia].
Qed.

(** X9.  The number of annotated studies that [orthanc_files_info.py --anno]
    prints for the server URL u is the length of the list of annotated
    studies that [orthanc_list_annotated_images.py] builds for the server
    URL u/ (the two scripts append '/studies/' and 'studies/'): it counts
    the listed studies whose attachments include '9999', and it is at most
    the number of studies printed. *)
Theorem anno_count_is_number_of_annotated_studies
    (server : Server) (orthanc_server_url : string)
    (orthanc_credentials : string * string) (counts : FilesInfo.Counts) :
  FilesInfo.main server orthanc_server_url orthanc_credentials true
    = Ok counts ->
  exists studies_list,
    ListAnnotatedImages.annotated_studies server (orthanc_server_url ++ "/")
      orthanc_credentials = Ok studies_list /\
    FilesInfo.n_annotated counts = Some (length studies_list) /\
    length studies_list <= FilesInfo.n_studies counts.
Proof.
  unfold FilesInfo.main, ListAnnotatedImages.annotated_studies.
  rewrite (append_assoc3 orthanc_server_url "/" "studies/").
  change ("/" ++ "studies/") with "/studies/".
  destruct (server (orthanc_server_url ++ "/patients/") _) as [patients|e];
    cbn [bind]; [|discriminate].
  destruct (server (orthanc_server_url ++ "/studies/") _) as [studies|e];
    cbn [bind]; [|discriminate].
  destruct (server (orthanc_server_url ++ "/series/") _) as [series|e];
    cbn [bind]; [|discriminate].
  destruct (server (orthanc_server_url ++ "/instances/") _) as [instances|e];
    cbn [bind]; [|discriminate].
  destruct (py_len patients) as [n1|e]; cbn [bind]; [|discriminate].
  destruct (py_len studies) as [n2|e] eqn:Hlen; cbn [bind]; [|discriminate].
  destruct (py_len series) as [n3|e]; cbn [bind]; [|discriminate].
  destruct (py_len instances) as [n4|e]; cbn [bind]; [|discriminate].
  destruct (py_iter studies) as [items|e] eqn:Hiter; cbn [bind]; [|discriminate].
  destruct (for_each (FilesInfo.count_body _ _ _) items 0) as [count|e] eqn:Hcount;
    cbn [bind]; [|discriminate].
  intros [= <-]. cbn [FilesInfo.n_annotated FilesInfo.n_studies].
  destruct (count_body_loop _ _ _ _ _ _ Hcount []) as [Hkeep ->].
  rewrite Hkeep. eexists. split; [reflexivity|].
  cbn [app Nat.add]. split; [reflexivity|].
  rewrite <- (py_len_iter _ _ _ Hlen Hiter). apply filter_length_le.
Qed.

Lemma anno_count_is_number_of_annotated_studies_witness :
  exists studies_list,
    ListAnnotatedImages.annotated_studies catalogue_server
      (catalogue_url ++ "/") demo_credentials = Ok studies_list /\
    Some 2 = Some (length studies_list) /\
    length studies_list <= 3.
Proof.
  apply (anno_count_is_number_of_annotated_studies catalogue_server
           catalogue_url demo_credentials
           {| FilesInfo.n_patients := 2; FilesInfo.n_studies := 3;
              FilesInfo.n_series := 3; FilesInfo.n_instances := 4;
              FilesInfo.n_annotated := Some 2 |}).
  reflexivity.
Defined.

(** ** The walk and the list of annotated studies *)

Lemma keep_annotated_loop_fetches server credentials studies_url
    studies studies_list studies_list' :
  for_each (ListAnnotatedImages.keep_annotated server credentials studies_url)
           studies studies_list = Ok studies_list' ->
  Forall (fun study =>
            exists attachments annotated,
              server (studies_url ++ study ++ "/attachments/") credentials
                = Ok attachments /\
              py_in "9999" attachments = Ok annotated) studies.
Proof.
  revert studies_list.
  induction studies as [|study studies IH]; intros studies_list; simpl;
    [constructor|].
  destruct (ListAnnotatedImages.keep_annotated _ _ _ _ _) as [l|e] eqn:Hk;
    cbn [bind]; [|discriminate].
  intros Hrest. constructor; [|apply (IH _ Hrest)].
  apply keep_annotated_Ok in Hk. apply Hk.
Qed.

Lemma walk_skips_unannotated server credentials studies_url series_url
    instances_url ignore_str studies :
  Forall (fun study =>
            exists attachments annotated,
              server (studies_url ++ study ++ "/attachments/") credentials
                = Ok attachments /\
              py_in "9999" attachments = Ok annotated) studies ->
  forall st,
    for_each (study_body server credentials studies_url series_url
                instances_url ignore_str) studies st
    = for_each (study_body server credentials studies_url series_url
                  instances_url ignore_str)
               (filter (is_annotated server credentials studies_url) studies) st.
Proof.
  induction 1 as [|study studies (att & annotated & Hatt & Hin) _ IH];
    intros st; [reflexivity|].
  cbn [filter].
  assert (Hann : is_annotated server credentials studies_url study = annotated)
    by (unfold is_annotated; rewrite Hatt, Hin; reflexivity).
  rewrite Hann. destruct annotated.
  - cbn [for_each]. destruct (study_body _ _ _ _ _ _ st study); cbn [bind];
      [apply IH | reflexivity].
  - cbn [for_each].
    rewrite (study_body_no_annotation server credentials studies_url series_url
               instances_url ignore_str st study)
      by (exists att; split; assumption).
    cbn [bind]. apply IH.
Qed.

(** X10.  The walk of [orthanc_instance_uids.py] for the server URL u does
    what the same loop does over the list of annotated studies that
    [orthanc_list_annotated_images.py] builds for the server URL u/: the
    studies outside that list add nothing and raise nothing.  In particular,
    when that list is empty the walk returns three empty lists. *)
Theorem walk_is_walk_of_annotated_studies
    (server : Server) (orthanc_server_url : string)
    (credentials : string * string) (series_url instances_url : string)
    (ignore_str : option string) (studies_list : list string) :
  ListAnnotatedImages.annotated_studies server (orthanc_server_url ++ "/")
    credentials = Ok studies_list ->
  extract_annotated_studies server credentials
    (orthanc_server_url ++ "/studies/") series_url instances_url ignore_str
  = for_each (study_body server credentials (orthanc_server_url ++ "/studies/")
                series_url instances_url ignore_str)
             studies_list ([], [], []) /\
  (studies_list = [] ->
   extract_annotated_studies server credentials
     (orthanc_server_url ++ "/studies/") series_url instances_url ignore_str
   = Ok ([], [], [])).
Proof.
  intros Hlist.
  assert (Hwalk :
    extract_annotated_studies server credentials
      (orthanc_server_url ++ "/studies/") series_url instances_url ignore_str
    = for_each (study_body server credentials (orthanc_server_url ++ "/studies/")
                  series_url instances_url ignore_str)
               studies_list ([], [], [])).
  { revert Hlist.
    unfold ListAnnotatedImages.annotated_studies, extract_annotated_studies.
    rewrite (append_assoc3 orthanc_server_url "/" "studies/").
    change ("/" ++ "studies/") with "/studies/".
    destruct (server (orthanc_server_url ++ "/studies/") credentials)
      as [all_studies|e]; cbn [bind]; [|discriminate].
    destruct (py_iter all_studies) as [studies|e]; cbn [bind]; [|discriminate].
    intros Hloop.
    pose proof (keep_annotated_loop_fetches _ _ _ _ _ _ Hloop) as Hfetch.
    apply keep_annotated_loop in Hloop. simpl in Hloop. subst studies_list.
    apply walk_skips_unannotated. exact Hfetch. }
  split; [exact Hwalk|]. intros ->. exact Hwalk.
Qed.

Lemma walk_is_walk_of_annotated_studies_witness :
  extract_annotated_studies catalogue_server demo_credentials
    (catalogue_url ++ "/studies/") (catalogue_url ++ "/series/")
    (catalogue_url ++ "/instances/") None
  = for_each (study_body catalogue_server demo_credentials
                (catalogue_url ++ "/studies/") (catalogue_url ++ "/series/")
                (catalogue_url ++ "/instances/") None)
             ["S1"; "S3"] ([], [], []).
Proof.
  apply (proj1 (walk_is_walk_of_annotated_studies catalogue_server
                  catalogue_url demo_credentials
                  (catalogue_url ++ "/series/") (catalogue_url ++ "/instances/")
                  None ["S1"; "S3"] eq_refl)).
Defined.

(** ** The unique attributes of [orthanc_attribute_checker.py] *)

Lemma py_eq_key a b :
  AttributeChecker.py_hashable a = true ->
  AttributeChecker.py_hashable b = true ->
  (AttributeChecker.py_eq a b = true <-> py_key a = py_key b).
Proof.
  destruct a as [|x|x|x|x|x], b as [|y|y|y|y|y]; simpl;
    try discriminate; intros _ _;
    try (split; [discriminate | intros H; discriminate H]);
    try (split; reflexivity).
  - destruct x, y; simpl; split; intros H; try reflexivity; discriminate H.
  - rewrite Z.eqb_eq. split; [intros ->; reflexivity | intros [= H]; auto].
  - rewrite Z.eqb_eq. split; [intros ->; reflexivity | intros [= H]; auto].
  - rewrite Z.eqb_eq. split; [intros ->; reflexivity | intros [= H]; auto].
  - rewrite String.eqb_eq. split; [intros ->; reflexivity | intros [= H]; auto].
Qed.

Lemma set_add_member x elements :
  AttributeChecker.py_hashable x = true ->
  Forall (fun v => AttributeChecker.py_hashable v = true) elements ->
  (existsb (AttributeChecker.py_eq x) elements = true <->
   In (py_key x) (map py_key elements)).
Proof.
  intros Hx Hall. rewrite existsb_exists, in_map_iff.
  rewrite Forall_forall in Hall. split.
  - intros (v & Hv & Heq). exists v. split; [|exact Hv].
    symmetry. apply (py_eq_key x v Hx (Hall v Hv)). exact Heq.
  - intros (v & Heq & Hv). exists v. split; [exact Hv|].
    apply (py_eq_key x v Hx (Hall v Hv)). symmetry. exact Heq.
Qed.

(** The elements of a set built from hashable values: no two are equal in
    Python, each comes from the values, and every value is equal to one. *)
Lemma py_set_fold values :
  Forall (fun v => AttributeChecker.py_hashable v = true) values ->
  forall elements,
    Forall (fun v => AttributeChecker.py_hashable v = true) elements ->
    NoDup (map py_key elements) ->
    let result := fold_left AttributeChecker.set_add values elements in
    NoDup (map py_key result) /\
    (forall v, In v result -> In v elements \/ In v values) /\
    (forall v, In v elements \/ In v values ->
               In (py_key v) (map py_key result)) /\
    length result <= length elements + length values.
Proof.
  induction 1 as [|x values Hx Hvalues IH]; intros elements Hel Hnd; simpl.
  - repeat split; [exact Hnd | auto | | lia].
    intros v [Hv|[]]. apply in_map. exact Hv.
  - assert (Hel' : Forall (fun v => AttributeChecker.py_hashable v = true)
                     (AttributeChecker.set_add elements x)).
    { unfold AttributeChecker.set_add.
      destruct (existsb _ elements); [exact Hel|].
      apply Forall_app. split; [exact Hel | constructor; [exact Hx|constructor]]. }
    assert (Hnd' : NoDup (map py_key (AttributeChecker.set_add elements x))).
    { unfold AttributeChecker.set_add.
      destruct (existsb _ elements) eqn:Hex; [exact Hnd|].
      rewrite map_app. simpl.
      assert (Hnotin : ~ In (py_key x) (map py_key elements)).
      { intros Hin. apply (set_add_member x elements Hx Hel) in Hin.
        rewrite Hin in Hex. discriminate Hex. }
      clear -Hnd Hnotin. induction (map py_key elements) as [|k ks IHk]; simpl.
      - constructor; [intros [] | constructor].
      - inversion Hnd; subst. constructor.
        + rewrite in_app_iff. intros [H|[H|[]]]; [contradiction|].
          apply Hnotin. left. symmetry. exact H.
        + apply IHk; [assumption|]. intros H. apply Hnotin. right. exact H. }
    destruct (IH _ Hel' Hnd') as (H1 & H2 & H3 & H4).
    assert (Hx_in : In (py_key x)
                       (map py_key (AttributeChecker.set_add elements x))).
    { unfold AttributeChecker.set_add.
      destruct (existsb _ elements) eqn:Hex.
      - apply (set_add_member x elements Hx Hel). exact Hex.
      - rewrite map_app, in_app_iff. right. left. reflexivity. }
    assert (Hsub : forall v, In v elements ->
                             In v (AttributeChecker.set_add elements x)).
    { intros v Hv. unfold AttributeChecker.set_add.
      destruct (existsb _ elements); [exact Hv|].
      apply in_app_iff. left. exact Hv. }
    assert (Hsup : forall v, In v (AttributeChecker.set_add elements x) ->
                             In v elements \/ v = x).
    { intros v. unfold AttributeChecker.set_add.
      destruct (existsb _ elements); [auto|].
      rewrite in_app_iff. intros [H|[H|[]]]; auto. }
    assert (Hlen : length (AttributeChecker.set_add elements x)
                   <= S (length elements)).
    { unfold AttributeChecker.set_add.
      destruct (existsb _ elements); [lia|]. rewrite length_app. simpl. lia. }
    repeat split.
    + exact H1.
    + intros v Hv. destruct (H2 v Hv) as [Hv'|Hv']; [|auto].
      destruct (Hsup v Hv') as [Hv''| ->]; auto.
    + intros v [Hv|[<-|Hv]].
      * apply H3. left. apply Hsub. exact Hv.
      * assert (Hk : exists w, In w (AttributeChecker.set_add elements x)
                               /\ py_key w = py_key x).
        { apply in_map_iff in Hx_in. destruct Hx_in as (w & Hw & Hin).
          exists w. split; assumption. }
        destruct Hk as (w & Hw & <-). apply H3. left. exact Hw.
      * apply H3. right. exact Hv.
    + lia.
Qed.

Lemma attribute_loop server orthanc_url credentials attribute
    (attr_of : string -> json) items :
  (forall item, In item items ->
     exists item_info tags,
       server (orthanc_url ++ item) credentials = Ok item_info /\
       py_getitem item_info "MainDicomTags" = Ok (JObj tags) /\
       dict_get tags attribute = Some (attr_of item)) ->
  for_each (AttributeChecker.item_body server orthanc_url credentials attribute)
           items [] = Ok (map attr_of items).
Proof.
  intros Hitems.
  rewrite (for_each_filter_map _ _ _ (fun _ => true) attr_of).
  - rewrite filter_all by reflexivity. reflexivity.
  - intros st item Hitem.
    destruct (Hitems item Hitem) as (info & tags & Hinfo & Htags & Hattr).
    unfold AttributeChecker.item_body. rewrite Hinfo. cbn [bind].
    rewrite Htags. cbn [bind py_getitem]. rewrite Hattr. reflexivity.
Qed.

(** X11.  When every listed item has the attribute among its main tags, with
    a hashable value, [retrieve_all_attributes] returns each distinct value
    once: no two returned values are equal in Python, every returned value
    is the attribute of a listed item, the attribute of every listed item is
    equal to a returned value, and there are at most as many values as
    items.  The order of the values is the one in which the set is
    iterated. *)
Theorem attributes_are_unique
    (server : Server) (set_order : list json -> list json)
    (orthanc_url : string) (credentials : string * string) (attribute : string)
    (all_items : json) (items : list string) (attr_of : string -> json) :
  (forall values, Permutation (set_order values) values) ->
  server orthanc_url credentials = Ok all_items ->
  py_iter all_items = Ok items ->
  (forall item, In item items ->
     AttributeChecker.py_hashable (attr_of item) = true /\
     exists item_info tags,
       server (orthanc_url ++ item) credentials = Ok item_info /\
       py_getitem item_info "MainDicomTags" = Ok (JObj tags) /\
       dict_get tags attribute = Some (attr_of item)) ->
  exists attrs,
    AttributeChecker.retrieve_all_attributes server set_order orthanc_url
      credentials attribute = Ok attrs /\
    NoDup (map py_key attrs) /\
    (forall v, In v attrs -> exists item, In item items /\ v = attr_of item) /\
    (forall item, In item items ->
                  In (py_key (attr_of item)) (map py_key attrs)) /\
    length attrs <= length items.
Proof.
  intros Horder Hall Hiter Hitems.
  assert (Hhash : Forall (fun v => AttributeChecker.py_hashable v = true)
                         (map attr_of items)).
  { apply Forall_forall. intros v Hv. apply in_map_iff in Hv.
    destruct Hv as (item & <- & Hitem). apply (Hitems item Hitem). }
  destruct (py_set_fold (map attr_of items) Hhash [] (Forall_nil _) (NoDup_nil _))
    as (Hnd & Hfrom & Hcover & Hlen).
  fold (AttributeChecker.py_set (map attr_of items)) in Hnd, Hfrom, Hcover, Hlen.
  pose proof (Horder (AttributeChecker.py_set (map attr_of items))) as Hperm.
  exists (set_order (AttributeChecker.py_set (map attr_of items))).
  split; [|split; [|split; [|split]]].
  - unfold AttributeChecker.retrieve_all_attributes.
    rewrite Hall. cbn [bind]. rewrite Hiter. cbn [bind].
    rewrite (attribute_loop server orthanc_url credentials attribute attr_of)
      by (intros item Hitem; apply (Hitems item Hitem)).
    cbn [bind].
    replace (forallb AttributeChecker.py_hashable (map attr_of items)) with true;
      [reflexivity|].
    symmetry. apply forallb_forall. rewrite Forall_forall in Hhash. exact Hhash.
  - apply (Permutation_NoDup (l := map py_key
                                      (AttributeChecker.py_set (map attr_of items)))).
    + apply Permutation_map, Permutation_sym, Hperm.
    + exact Hnd.
  - intros v Hv. apply (Permutation_in _ Hperm) in Hv.
    destruct (Hfrom v Hv) as [[]|Hin]. apply in_map_iff in Hin.
    destruct Hin as (item & <- & Hitem). exists item. split; [exact Hitem|reflexivity].
  - intros item Hitem.
    apply (Permutation_in (l := map py_key
                                  (AttributeChecker.py_set (map attr_of items)))).
    + apply Permutation_map, Permutation_sym, Hperm.
    + apply Hcover. right. apply in_map. exact Hitem.
  - rewrite (Permutation_length Hperm), <- (length_map attr_of items).
    simpl in Hlen. exact Hlen.
Qed.

Lemma attributes_are_unique_witness :
  exists attrs,
    AttributeChecker.retrieve_all_attributes catalogue_server (@rev json)
      (catalogue_url ++ "/studies/") demo_credentials "StudyDescription"
    = Ok attrs /\
    NoDup (map py_key attrs) /\
    (forall v, In v attrs ->
       exists item, In item ["S1"; "S2"; "S3"] /\
                    v = if String.eqb item "S2" then JStr "RIBS" else JStr "CHEST") /\
    (forall item, In item ["S1"; "S2"; "S3"] ->
       In (py_key (if String.eqb item "S2" then JStr "RIBS" else JStr "CHEST"))
          (map py_key attrs)) /\
    length attrs <= 3.
Proof.
  apply (attributes_are_unique catalogue_server (@rev json)
           (catalogue_url ++ "/studies/") demo_credentials "StudyDescription"
           (JArr ["S1"; "S2"; "S3"]) ["S1"; "S2"; "S3"]
           (fun item => if String.eqb item "S2" then JStr "RIBS" else JStr "CHEST")).
  - intros values. apply Permutation_sym, Permutation_rev.
  - reflexivity.
  - reflexivity.
  - intros item [<-|[<-|[<-|[]]]];
      (split; [reflexivity | eexists; eexists; repeat split; reflexivity]).
Defined.

(** X12.  [retrieve_all_attributes] puts no default in the place of an
    absent attribute: when the items listed before [item] have been read and
    the main tags of [item] lack the attribute, the call raises [KeyError]
    with the name of the attribute and returns no value at all. *)
Theorem absent_attribute_raises
    (server : Server) (set_order : list json -> list json)
    (orthanc_url : string) (credentials : string * string) (attribute : string)
    (all_items : json) (before : list string) (item : string)
    (after : list string) (attrs_before : list json)
    (item_info : json) (tags : list (string * json)) :
  server orthanc_url credentials = Ok all_items ->
  py_iter all_items = Ok (before ++ item :: after)%list ->
  for_each (AttributeChecker.item_body server orthanc_url credentials attribute)
           before [] = Ok attrs_before ->
  server (orthanc_url ++ item) credentials = Ok item_info ->
  py_getitem item_info "MainDicomTags" = Ok (JObj tags) ->
  dict_get tags attribute = None ->
  AttributeChecker.retrieve_all_attributes server set_order orthanc_url
    credentials attribute = Raise (KeyError attribute).
Proof.
  intros Hall Hiter Hbefore Hinfo Htags Hattr.
  unfold AttributeChecker.retrieve_all_attributes.
  rewrite Hall. cbn [bind]. rewrite Hiter. cbn [bind].
  rewrite (for_each_raise_at _ _ _ _ _ _ _ _ (KeyError attribute) Hbefore);
    [reflexivity|].
  unfold AttributeChecker.item_body. rewrite Hinfo. cbn [bind].
  rewrite Htags. cbn [bind py_getitem]. rewrite Hattr. reflexivity.
Qed.

Lemma absent_attribute_raises_witness :
  AttributeChecker.retrieve_all_attributes catalogue_server (@rev json)
    (catalogue_url ++ "/studies/") demo_credentials "StudyDate"
  = Raise (KeyError "StudyDate").
Proof.
  apply (absent_attribute_raises catalogue_server (@rev json)
           (catalogue_url ++ "/studies/") demo_credentials "StudyDate"
           (JArr ["S1"; "S2"; "S3"]) [] "S1" ["S2"; "S3"] []
           (catalogue_study "anon_ib_01" "ANON_IB 01" "CHEST" ["R1"])
           [("StudyDescription", JStr "CHEST")]);
    reflexivity.
Defined.

(** ** The deletion script [orthanc_delete.py] *)

Lemma last_cons_any (A : Type) (x : A) (l : list A) (d : A) :
  last (x :: l) d = last l x.
Proof.
  revert x d. induction l as [|y l IH]; intros x d; [reflexivity|].
  change (last (x :: y :: l) d) with (last (y :: l) d).
  rewrite (IH y d), (IH y x). reflexivity.
Qed.

Section DeleteFacts.

Variable status_code : string -> string * string -> result Z.
Variable server : Server.
Variable delete_outcome : string -> string * string -> result unit.

Lemma getpass_Ok w answer w' :
  Delete.getpass w = (inr answer, w') ->
  Delete.getpass_answers w = answer :: Delete.getpass_answers w' /\
  Delete.input_answers w' = Delete.input_answers w /\
  Delete.deleted w' = Delete.deleted w.
Proof.
  unfold Delete.getpass. destruct (Delete.getpass_answers w) as [|a rest] eqn:E;
    [discriminate|].
  intros [= <- <-]. simpl. repeat split; reflexivity.
Qed.

Lemma getpass_fail w f w' : Delete.getpass w = (inl f, w') -> w' = w.
Proof.
  unfold Delete.getpass. destruct (Delete.getpass_answers w); [|discriminate].
  intros [= _ <-]. reflexivity.
Qed.

(** The loop of [check_credentials] sends no DELETE and reads no [input]. *)
Lemma check_loop_keeps server_url tests previous w out w' :
  Delete.check_loop status_code server_url tests previous w = (out, w') ->
  Delete.deleted w' = Delete.deleted w /\
  Delete.input_answers w' = Delete.input_answers w.
Proof.
  revert previous w. induction tests as [|tests IH]; intros previous w; simpl.
  - intros [= _ <-]. split; reflexivity.
  - unfold Delete.bindM at 1.
    destruct (Delete.getpass w) as [[f|username] w1] eqn:Hu.
    { intros [= _ <-]. apply getpass_fail in Hu. subst. split; reflexivity. }
    apply getpass_Ok in Hu. destruct Hu as (_ & Hi1 & Hd1).
    unfold Delete.bindM at 1.
    destruct (Delete.getpass w1) as [[f|password] w2] eqn:Hp.
    { intros [= _ <-]. apply getpass_fail in Hp. subst.
      split; assumption. }
    apply getpass_Ok in Hp. destruct Hp as (_ & Hi2 & Hd2).
    unfold Delete.bindM at 1.
    destruct (status_code server_url (username, password)) as [code|e];
      cbn [Delete.lift Delete.ret Delete.fail].
    + destruct (Z.eqb code 200).
      * intros [= _ <-]. split; congruence.
      * intros Hrest. apply IH in Hrest. destruct Hrest as [Hd Hi].
        split; congruence.
    + intros [= _ <-]. split; congruence.
Qed.

(** What the loop returns: the attempts made, as pairs of answers. *)
Lemma check_loop_Ok server_url tests previous w status credentials w' :
  Delete.check_loop status_code server_url tests previous w
  = (inr (status, credentials), w') ->
  exists attempts,
    length attempts <= tests /\
    Delete.getpass_answers w
    = (flat_map (fun a => [fst a; snd a]) attempts
       ++ Delete.getpass_answers w')%list /\
    credentials = last (map Some attempts) previous /\
    (if status
     then exists earlier accepted,
            attempts = (earlier ++ [accepted])%list /\
            Forall (rejected status_code server_url) earlier /\
            status_code server_url accepted = Ok 200%Z
     else length attempts = tests /\ Forall (rejected status_code server_url) attempts).
Proof.
  revert previous w. induction tests as [|tests IH]; intros previous w; simpl.
  - intros [= <- <- <-]. exists []. simpl. repeat split; try lia. constructor.
  - unfold Delete.bindM at 1.
    destruct (Delete.getpass w) as [[f|username] w1] eqn:Hu; [discriminate|].
    apply getpass_Ok in Hu. destruct Hu as (Hg1 & _ & _).
    unfold Delete.bindM at 1.
    destruct (Delete.getpass w1) as [[f|password] w2] eqn:Hp; [discriminate|].
    apply getpass_Ok in Hp. destruct Hp as (Hg2 & _ & _).
    unfold Delete.bindM at 1.
    destruct (status_code server_url (username, password)) as [code|e] eqn:Hcode;
      cbn [Delete.lift Delete.ret Delete.fail]; [|discriminate].
    destruct (Z.eqb_spec code 200) as [->|Hne].
    + intros [= <- <- <-]. exists [(username, password)]. simpl.
      split; [lia|]. split; [rewrite Hg1, Hg2; reflexivity|].
      split; [reflexivity|].
      exists [], (username, password). repeat split; [constructor | exact Hcode].
    + intros Hrest. apply IH in Hrest.
      destruct Hrest as (attempts & Hlen & Hg & Hcred & Hstatus).
      assert (Hrej : rejected status_code server_url (username, password))
        by (exists code; split; assumption).
      exists ((username, password) :: attempts).
      split; [simpl; lia|]. split; [simpl; rewrite Hg1, Hg2, Hg; reflexivity|].
      split.
      * cbn [map]. rewrite last_cons_any. exact Hcred.
      * destruct status.
        -- destruct Hstatus as (earlier & accepted & -> & Hearlier & Hacc).
           exists ((username, password) :: earlier), accepted.
           repeat split; [constructor; assumption | exact Hacc].
        -- destruct Hstatus as [Hall Hforall].
           split; [simpl; lia | constructor; assumption].
Qed.

End DeleteFacts.

(** X13.  [check_credentials] asks for a user name and a password at most
    three times and stops at the first pair the server accepts with status
    200.  When it returns, it has sent no DELETE and read no confirmation;
    the pairs typed before the returned one were all rejected; it returns
    [True] with a pair the server accepted, or [False] with the third pair
    after three rejections. *)
Theorem check_credentials_three_attempts
    (status_code : string -> string * string -> result Z)
    (server_url : string) (w : Delete.World)
    (status : bool) (credentials : string * string) (w' : Delete.World) :
  Delete.check_credentials status_code server_url w
  = (inr (status, credentials), w') ->
  Delete.deleted w' = Delete.deleted w /\
  Delete.input_answers w' = Delete.input_answers w /\
  exists earlier,
    length earlier <= 2 /\
    Delete.getpass_answers w
    = (flat_map (fun a => [fst a; snd a]) (earlier ++ [credentials])
       ++ Delete.getpass_answers w')%list /\
    Forall (rejected status_code server_url) earlier /\
    (if status
     then status_code server_url credentials = Ok 200%Z
     else length earlier = 2 /\ rejected status_code server_url credentials).
Proof.
  unfold Delete.check_credentials, Delete.bindM.
  destruct (Delete.check_loop status_code server_url 3 None w)
    as [[f|[st cr]] w1] eqn:Hloop; [discriminate|].
  destruct cr as [c|]; cbn [snd fst Delete.ret Delete.fail]; [|discriminate].
  intros [= <- <- <-].
  pose proof (check_loop_keeps _ _ _ _ _ _ _ Hloop) as [Hd Hi].
  split; [exact Hd|]. split; [exact Hi|].
  apply check_loop_Ok in Hloop.
  destruct Hloop as (attempts & Hlen & Hg & Hcred & Hstatus).
  destruct st.
  - destruct Hstatus as (earlier & accepted & -> & Hearlier & Hacc).
    rewrite map_app in Hcred. cbn [map] in Hcred. rewrite last_last in Hcred.
    injection Hcred as ->.
    exists earlier. rewrite length_app in Hlen. simpl in Hlen.
    split; [lia|]. split; [exact Hg|]. split; assumption.
  - destruct Hstatus as [Hall Hrej].
    destruct attempts as [|a [|b [|d [|? ?]]]]; try discriminate Hall.
    simpl in Hcred. injection Hcred as ->.
    exists [a; b]. split; [simpl; lia|]. split; [exact Hg|].
    inversion Hrej as [|? ? Ha Hrest]; subst.
    inversion Hrest as [|? ? Hb Hrest']; subst.
    inversion Hrest' as [|? ? Hc _]; subst.
    split; [constructor; [exact Ha | constructor; [exact Hb | constructor]]|].
    split; [reflexivity | exact Hc].
Qed.

Lemma check_credentials_three_attempts_witness :
  Delete.deleted
    {| Delete.getpass_answers := []; Delete.input_answers := ["DELETE"];
       Delete.deleted := [] |}
  = Delete.deleted typing_world /\
  Delete.input_answers
    {| Delete.getpass_answers := []; Delete.input_answers := ["DELETE"];
       Delete.deleted := [] |}
  = Delete.input_answers typing_world /\
  exists earlier,
    length earlier <= 2 /\
    Delete.getpass_answers typing_world
    = (flat_map (fun a => [fst a; snd a]) (earlier ++ [("admin", "pw")])
       ++ [])%list /\
    Forall (rejected login_status catalogue_url) earlier /\
    login_status catalogue_url ("admin", "pw") = Ok 200%Z.
Proof.
  apply (check_credentials_three_attempts login_status catalogue_url
           typing_world true ("admin", "pw")
           {| Delete.getpass_answers := []; Delete.input_answers := ["DELETE"];
              Delete.deleted := [] |}).
  reflexivity.
Defined.

Section DeleteRequests.

Variable status_code : string -> string * string -> result Z.
Variable server : Server.
Variable delete_outcome : string -> string * string -> result unit.

Lemma delete_loop_trace type_ server_url credentials items w out w' :
  Delete.delete_loop delete_outcome type_
    (server_url
     ++ (if String.eqb type_ "annotations" then "/studies/" else "/patients/"))
    credentials items w = (out, w') ->
  Delete.getpass_answers w' = Delete.getpass_answers w /\
  Delete.input_answers w' = Delete.input_answers w /\
  exists k,
    k <= length items /\
    Delete.deleted w'
    = (Delete.deleted w
       ++ map (delete_target type_ server_url credentials) (firstn k items))%list /\
    (out = inr tt -> k = length items) /\
    ((forall item, In item items ->
        delete_outcome (fst (delete_target type_ server_url credentials item))
                       credentials = Ok tt) ->
     out = inr tt).
Proof.
  revert w. induction items as [|item items IH]; intros w; simpl.
  - intros [= <- <-]. repeat split. exists 0. simpl. rewrite app_nil_r.
    repeat split; lia.
  - unfold Delete.bindM at 1, Delete.requests_delete at 1.
    destruct (delete_outcome _ credentials) as [[]|e] eqn:Hout.
    + intros Hrest. apply IH in Hrest. cbn [Delete.getpass_answers
        Delete.input_answers Delete.deleted] in Hrest.
      destruct Hrest as (Hg & Hi & k & Hk & Hd & Hall & Hok).
      split; [exact Hg|]. split; [exact Hi|].
      exists (S k). split; [lia|]. split.
      * rewrite Hd, <- app_assoc. reflexivity.
      * split; [intros H; rewrite (Hall H); reflexivity|].
        intros H. apply Hok. intros i Hi'. apply H. right. exact Hi'.
    + intros [= <- <-]. cbn [Delete.getpass_answers Delete.input_answers
        Delete.deleted].
      split; [reflexivity|]. split; [reflexivity|].
      exists 1. split; [lia|]. split; [reflexivity|].
      split; [discriminate|].
      intros H. pose proof (H item (or_introl eq_refl)) as Hitem.
      cbn [fst delete_target] in Hitem. rewrite Hitem in Hout.
      discriminate Hout.
Qed.

Lemma py_iter_len v items : py_iter v = Ok items -> exists n, py_len v = Ok n.
Proof. destruct v; simpl; try discriminate; eauto. Qed.

Lemma lift_keeps (A : Type) (r : result A) w out w' :
  Delete.lift r w = (out, w') -> w' = w.
Proof. destruct r; simpl; intros [= _ <-]; reflexivity. Qed.

Lemma delete_from_server_trace type_ server_url credentials w out w' :
  Delete.delete_from_server server delete_outcome type_ server_url credentials w
  = (out, w') ->
  Delete.getpass_answers w' = Delete.getpass_answers w /\
  Delete.input_answers w' = Delete.input_answers w /\
  exists sent,
    Delete.deleted w'
    = (Delete.deleted w
       ++ map (delete_target type_ server_url credentials) sent)%list /\
    forall all_items items,
      server (server_url
              ++ (if String.eqb type_ "annotations"
                  then "/studies/" else "/patients/")) credentials
        = Ok all_items ->
      py_iter all_items = Ok items ->
      (exists k, sent = firstn k items) /\
      (out = inr tt -> sent = items) /\
      ((forall item, In item items ->
          delete_outcome (fst (delete_target type_ server_url credentials item))
                         credentials = Ok tt) ->
       out = inr tt).
Proof.
  unfold Delete.delete_from_server, Delete.bindM.
  destruct (server _ credentials) as [all_items|e] eqn:Hall;
    cbn [Delete.lift Delete.ret Delete.fail].
  2:{ intros [= _ <-]. repeat split. exists []. simpl. rewrite app_nil_r.
      split; [reflexivity|]. intros ? ? H. discriminate H. }
  destruct (py_iter all_items) as [items|e] eqn:Hiter;
    cbn [Delete.lift Delete.ret Delete.fail].
  2:{ intros [= _ <-]. repeat split. exists []. simpl. rewrite app_nil_r.
      split; [reflexivity|]. intros ? items [= <-] H.
      rewrite Hiter in H. discriminate H. }
  destruct (py_len all_items) as [n|e] eqn:Hlen;
    cbn [Delete.lift Delete.ret Delete.fail].
  2:{ exfalso. apply py_iter_len in Hiter. destruct Hiter as [m Hm].
      rewrite Hm in Hlen. discriminate Hlen. }
  intros Hloop. apply delete_loop_trace in Hloop.
  destruct Hloop as (Hg & Hi & k & Hk & Hd & Hdone & Hok).
  split; [exact Hg|]. split; [exact Hi|].
  exists (firstn k items). split; [exact Hd|].
  intros ? items' [= <-] Hiter'. rewrite Hiter in Hiter'.
  injection Hiter' as <-. split; [exists k; reflexivity|].
  split; [|exact Hok].
  intros H. rewrite (Hdone H). apply firstn_all.
Qed.

End DeleteRequests.

(** X14.  [delete_from_server] sends its DELETE requests to the listed items
    only, in the order of the listing and one per item, and stops at the
    first request that raises.  With the type "annotations" each request
    goes to the attachment '<server>/studies/<study>/attachments/9999/' and
    never to the study itself; with any other type it goes to
    '<server>/patients/<patient>'.  When the listing cannot be fetched no
    request is sent, and when no request raises, every listed item gets
    one. *)
Theorem delete_requests_follow_listing
    (server : Server)
    (delete_outcome : string -> string * string -> result unit)
    (type_ server_url : string) (credentials : string * string)
    (w : Delete.World) (out : Delete.failure + unit) (w' : Delete.World) :
  Delete.delete_from_server server delete_outcome type_ server_url credentials w
  = (out, w') ->
  exists sent,
    Delete.deleted w'
    = (Delete.deleted w
       ++ map (delete_target type_ server_url credentials) sent)%list /\
    (match server (server_url
                   ++ (if String.eqb type_ "annotations"
                       then "/studies/" else "/patients/")) credentials with
     | Ok all_items =>
         match py_iter all_items with
         | Ok items =>
             (exists k, sent = firstn k items) /\
             (out = inr tt -> sent = items) /\
             ((forall item, In item items ->
                 delete_outcome
                   (fst (delete_target type_ server_url credentials item))
                   credentials = Ok tt) ->
              out = inr tt)
         | Raise _ => sent = []
         end
     | Raise _ => sent = []
     end).
Proof.
  intros Hrun.
  pose proof (delete_from_server_trace server delete_outcome _ _ _ _ _ _ Hrun)
    as (_ & _ & sent & Hd & Hsent).
  destruct (server _ credentials) as [all_items|e] eqn:Hall.
  - destruct (py_iter all_items) as [items|e] eqn:Hiter.
    + exists sent. split; [exact Hd|]. apply (Hsent all_items items eq_refl Hiter).
    + exists []. split.
      * revert Hrun. unfold Delete.delete_from_server, Delete.bindM.
        rewrite Hall. cbn [Delete.lift Delete.ret].
        rewrite Hiter. cbn [Delete.lift Delete.fail]. intros [= _ <-].
        simpl. rewrite app_nil_r. reflexivity.
      * reflexivity.
  - exists []. split; [|reflexivity].
    revert Hrun. unfold Delete.delete_from_server, Delete.bindM.
    rewrite Hall. cbn [Delete.lift Delete.fail]. intros [= _ <-].
    simpl. rewrite app_nil_r. reflexivity.
Qed.

Lemma delete_requests_follow_listing_witness :
  exists sent,
    [ ("http://orthanc:8042/studies/S1/attachments/9999/", ("admin", "pw"));
      ("http://orthanc:8042/studies/S2/attachments/9999/", ("admin", "pw"));
      ("http://orthanc:8042/studies/S3/attachments/9999/", ("admin", "pw")) ]
    = (Delete.deleted typing_world
       ++ map (delete_target "annotations" catalogue_url ("admin", "pw")) sent)%list /\
    (exists k, sent = firstn k ["S1"; "S2"; "S3"]) /\
    (@inr Delete.failure unit tt = inr tt -> sent = ["S1"; "S2"; "S3"]) /\
    ((forall item, In item ["S1"; "S2"; "S3"] ->
        delete_returns
          (fst (delete_target "annotations" catalogue_url ("admin", "pw") item))
          ("admin", "pw") = Ok tt) ->
     @inr Delete.failure unit tt = inr tt).
Proof.
  apply (delete_requests_follow_listing catalogue_server delete_returns
           "annotations" catalogue_url ("admin", "pw") typing_world (inr tt)
           {| Delete.getpass_answers := Delete.getpass_answers typing_world;
              Delete.input_answers := Delete.input_answers typing_world;
              Delete.deleted :=
                [ ("http://orthanc:8042/studies/S1/attachments/9999/",
                   ("admin", "pw"));
                  ("http://orthanc:8042/studies/S2/attachments/9999/",
                   ("admin", "pw"));
                  ("http://orthanc:8042/studies/S3/attachments/9999/",
                   ("admin", "pw")) ] |}).
  reflexivity.
Defined.

Lemma accepted_login_has_status_200 status_code server_url w
    credentials w' :
  Delete.check_credentials status_code server_url w
  = (inr (true, credentials), w') ->
  status_code server_url credentials = Ok 200%Z.
Proof.
  unfold Delete.check_credentials, Delete.bindM.
  destruct (Delete.check_loop status_code server_url 3 None w)
    as [[f|[st cr]] w1] eqn:Hloop; [discriminate|].
  destruct cr as [c|]; cbn [snd fst Delete.ret Delete.fail]; [|discriminate].
  intros [= -> -> <-].
  apply check_loop_Ok in Hloop.
  destruct Hloop as (attempts & _ & _ & Hcred & earlier & accepted & -> & _ & Hacc).
  rewrite map_app in Hcred. cbn [map] in Hcred. rewrite last_last in Hcred.
  injection Hcred as ->. exact Hacc.
Qed.

Lemma check_credentials_keeps status_code server_url w out w' :
  Delete.check_credentials status_code server_url w = (out, w') ->
  Delete.deleted w' = Delete.deleted w /\
  Delete.input_answers w' = Delete.input_answers w.
Proof.
  unfold Delete.check_credentials, Delete.bindM.
  destruct (Delete.check_loop status_code server_url 3 None w)
    as [[f|[st cr]] w1] eqn:Hloop.
  - intros [= _ <-]. apply (check_loop_keeps _ _ _ _ _ _ _ Hloop).
  - apply check_loop_keeps in Hloop.
    destruct cr; cbn [snd fst Delete.ret Delete.fail]; intros [= _ <-];
      exact Hloop.
Qed.

(** X15.  [main] of [orthanc_delete.py] sends a DELETE request only after a
    login the server accepted with status 200 and the answer 'DELETE', typed
    exactly, to the confirmation prompt; the requests it then sends use the
    accepted credentials and go to the targets of [delete_from_server].  In
    every other run (login refused three times, another answer, end of
    input, an exception) nothing is deleted. *)
Theorem no_delete_without_login_and_confirmation
    (status_code : string -> string * string -> result Z)
    (server : Server)
    (delete_outcome : string -> string * string -> result unit)
    (type_ orthanc_server_url : string)
    (w : Delete.World) (out : Delete.failure + unit) (w' : Delete.World) :
  Delete.main status_code server delete_outcome type_ orthanc_server_url w
  = (out, w') ->
  Delete.deleted w' <> Delete.deleted w ->
  exists credentials sent,
    status_code orthanc_server_url credentials = Ok 200%Z /\
    hd_error (Delete.input_answers w) = Some "DELETE" /\
    Delete.deleted w'
    = (Delete.deleted w
       ++ map (delete_target type_ orthanc_server_url credentials) sent)%list.
Proof.
  unfold Delete.main. unfold Delete.bindM at 1.
  destruct (Delete.check_credentials status_code orthanc_server_url w)
    as [[f|[status credentials]] w1] eqn:Hcheck.
  - intros [= _ <-] Hchanged. exfalso. apply Hchanged.
    apply (check_credentials_keeps _ _ _ _ _ Hcheck).
  - pose proof (check_credentials_keeps _ _ _ _ _ Hcheck) as [Hd Hi].
    cbn [fst snd]. destruct status; cbn [negb].
    + unfold Delete.bindM at 1, Delete.input at 1. cbn beta.
      case_eq (Delete.input_answers w1); [intros Hinput | intros prompt rest Hinput].
      { intros [= _ <-] Hchanged. exfalso. apply Hchanged. exact Hd. }
      destruct (String.eqb_spec prompt "DELETE") as [->|Hne].
      * intros Hrun Hchanged.
        apply delete_from_server_trace in Hrun.
        cbn [Delete.getpass_answers Delete.input_answers Delete.deleted] in Hrun.
        destruct Hrun as (_ & _ & sent & Hsent & _).
        apply accepted_login_has_status_200 in Hcheck.
        exists credentials, sent.
        split; [exact Hcheck|]. split; [rewrite <- Hi, Hinput; reflexivity|].
        rewrite Hsent, Hd. reflexivity.
      * intros [= _ <-] Hchanged. exfalso. apply Hchanged. exact Hd.
    + intros [= _ <-] Hchanged. exfalso. apply Hchanged. exact Hd.
Qed.

Lemma no_delete_without_login_and_confirmation_witness :
  exists credentials sent,
    login_status catalogue_url credentials = Ok 200%Z /\
    hd_error (Delete.input_answers typing_world) = Some "DELETE" /\
    [ ("http://orthanc:8042/patients/P1", ("admin", "pw"));
      ("http://orthanc:8042/patients/P2", ("admin", "pw")) ]
    = (Delete.deleted typing_world
       ++ map (delete_target "patients" catalogue_url credentials) sent)%list.
Proof.
  apply (no_delete_without_login_and_confirmation login_status catalogue_server
           delete_returns "patients" catalogue_url typing_world (inr tt)
           {| Delete.getpass_answers := []; Delete.input_answers := [];
              Delete.deleted :=
                [ ("http://orthanc:8042/patients/P1", ("admin", "pw"));
                  ("http://orthanc:8042/patients/P2", ("admin", "pw")) ] |}).
  - reflexivity.
  - discriminate.
Defined.
